(** * Open-DCAs: the Jupiter DCA aggregation and the dashboard's poll cycle

    A shallow embedding of [api/jupiter] (class [JupiterDCAAPI]: [withRetry],
    [getCurrentPrice], [convertDCAAccount], [getDCAAccounts],
    [calculateSummaryFromRawAccounts]) and of [fetchData] of
    [components/DCADashboard.tsx].

    - A JavaScript [number] is an IEEE 754 binary64 value: Rocq's primitive
      [float], whose operations round to nearest, ties to even, as
      JavaScript's do.
    - A [BN] (bn.js big integer) is a [Z]; [toNumber] is partial, as in bn.js.
    - [throw] / [try ... catch] is an error monad ([JS.Result]); an [async]
      method is a function of the state of the outside world ([World]) that
      also returns the events it produced (attempts, waits, timers).
    - The SDK call [dca.getAll()], the price request and the clock are the
      outside world: their answers are read from the [World]. *)

From Stdlib Require Import ZArith List String Bool Lia.
From Stdlib Require Import Floats Uint63.
From Stdlib Require Import Ascii DecimalString.
Import ListNotations.

Open Scope string_scope.
Open Scope list_scope.
Open Scope Z_scope.

(** ** JavaScript values *)

Module JS.

Definition number := float.

(** What a [throw] carries: [undefined] (an unassigned [let lastError]) or
    an [Error] object with its message. *)
Inductive Thrown :=
| Undefined
| Error (message : string).

Inductive Result (A : Type) :=
| Ok (value : A)
| Throw (e : Thrown).
Arguments Ok {A} value.
Arguments Throw {A} e.

Definition bind {A B} (r : Result A) (k : A -> Result B) : Result B :=
  match r with
  | Ok a => k a
  | Throw e => Throw e
  end.

(** [Math.pow(10, 6)] *)
Definition Math_pow_10_6 : number := 1000000%float.

Definition two52 : number := 4503599627370496%float.

(** Nearest integer, ties to even, of a number below [2^52] in magnitude. *)
Definition rint (x : number) : number :=
  if PrimFloat.ltb x 0 then ((x - two52) + two52)%float
  else ((x + two52) - two52)%float.

Definition Math_floor (x : number) : number :=
  let r := rint x in
  if PrimFloat.ltb x r then (r - 1)%float else r.

(** [Math.round]: NaN, the infinities and the zeros are returned as they
    are; otherwise the nearest integer, a tie going up; a negative argument
    that rounds to zero gives [-0]. *)
Definition Math_round (x : number) : number :=
  if PrimFloat.is_nan x || PrimFloat.is_infinity x || PrimFloat.is_zero x then x
  else if PrimFloat.leb two52 (PrimFloat.abs x) then x
  else
    let fl := Math_floor x in
    let r := if PrimFloat.leb 0.5 (x - fl) then (fl + 1)%float else fl in
    if PrimFloat.is_zero r && PrimFloat.ltb x 0 then (-0)%float else r.

(** Truthiness of a number: [0], [-0] and [NaN] are falsy. *)
Definition truthy (x : number) : bool :=
  negb (PrimFloat.is_zero x || PrimFloat.is_nan x).

(** [v || d] where [v] is a number or [undefined] ([None]). *)
Definition or_default (v : option number) (d : number) : number :=
  match v with
  | Some x => if truthy x then x else d
  | None => d
  end.

(** Arrays and objects are always truthy. *)
Definition truthy_object {A : Type} (_ : A) : bool := true.

(** A JavaScript object used as a string-keyed record, in insertion order. *)
Definition Dict (A : Type) := list (string * A).

Fixpoint get {A} (key : string) (d : Dict A) : option A :=
  match d with
  | [] => None
  | (k, v) :: d' => if String.eqb k key then Some v else get key d'
  end.

(** [array.reduce(f, init)] with a callback that may throw. *)
Fixpoint reduce {A B} (f : B -> A -> Result B) (init : B) (l : list A) : Result B :=
  match l with
  | [] => Ok init
  | a :: l' => bind (f init a) (fun sum => reduce f sum l')
  end.

(** [array.map(f)] with a callback that may throw. *)
Fixpoint map {A B} (f : A -> Result B) (l : list A) : Result (list B) :=
  match l with
  | [] => Ok []
  | a :: l' => bind (f a) (fun b => bind (map f l') (fun bs => Ok (b :: bs)))
  end.

End JS.

Import JS.

Notation "'try!' x ':=' e 'in' k" := (JS.bind e (fun x => k))
  (at level 10, x name, e at level 100, k at level 200).

(** ** bn.js *)

Module BN.

Definition t := Z.

Definition sub (a b : t) : t := a - b.

(** The number with the value of an integer of at most 53 bits (exact). *)
Definition number_of (z : Z) : number :=
  if z <? 0 then PrimFloat.opp (PrimFloat.of_uint63 (Uint63.of_Z (- z)))
  else PrimFloat.of_uint63 (Uint63.of_Z z).

(** What the failed assertion of [toNumber] throws. *)
Definition tooLarge : Thrown :=
  Error "Number can only safely store up to 53 bits".

(** [toNumber] asserts that the value fits in 53 bits. *)
Definition toNumber (a : t) : Result number :=
  if Z.abs a <? 2 ^ 53 then Ok (number_of a) else Throw tooLarge.

End BN.

(** ** The SDK's account records ([DCAAccountType]) *)

Module Sdk.

(** A [PublicKey] is identified with its base58 rendering ([toString()]);
    [equals] is equality of the keys. *)
Definition PublicKey := string.

Definition equals (a b : PublicKey) : bool := String.eqb a b.

Record Account := {
  user : PublicKey;
  inputMint : PublicKey;
  outputMint : PublicKey;
  idx : BN.t;
  nextCycleAt : BN.t;
  inDeposited : BN.t;
  inWithdrawn : BN.t;
  outWithdrawn : BN.t;
  inUsed : BN.t;
  inAmountPerCycle : BN.t;
  cycleFrequency : BN.t;
  bump : Z;
  minOutAmount : option BN.t;
  maxOutAmount : option BN.t
}.

Record DCAAccountType := {
  publicKey : PublicKey;
  account : Account
}.

End Sdk.

Import Sdk.

(** ** The display types of [types/dca] *)

Inductive Direction := BUY | SELL.

Module Position.

(** The fields of the object literal that [convertDCAAccount] returns
    (the type is declared in [types/dca]); an [undefined]
    [estimatedOutput] is [None]. *)
Record t := {
  id : string;
  token : string;
  type : Direction;
  inputToken : string;
  outputToken : string;
  inputAmount : number;
  totalAmount : number;
  amountPerCycle : number;
  remainingCycles : number;
  cycleFrequency : number;
  lastUpdate : number;
  publicKey : string;
  targetPrice : number;
  currentPrice : number;
  priceToken : string;
  estimatedOutput : option number
}.

(** [{...pos, currentPrice: price}] *)
Definition withCurrentPrice (pos : t) (price : number) : t :=
  {| id := id pos; token := token pos; type := type pos;
     inputToken := inputToken pos; outputToken := outputToken pos;
     inputAmount := inputAmount pos; totalAmount := totalAmount pos;
     amountPerCycle := amountPerCycle pos;
     remainingCycles := remainingCycles pos;
     cycleFrequency := cycleFrequency pos;
     lastUpdate := lastUpdate pos; publicKey := publicKey pos;
     targetPrice := targetPrice pos; currentPrice := price;
     priceToken := priceToken pos;
     estimatedOutput := estimatedOutput pos |}.

End Position.

Module TokenSummary.

(** The fields of the object literals that
    [calculateSummaryFromRawAccounts] builds (the type is declared in
    [types/dca]). *)
Record t := {
  buyOrders : nat;
  sellOrders : nat;
  buyVolume : number;
  sellVolume : number;
  buyVolumeUSDC : number;
  sellVolumeUSDC : number
}.

End TokenSummary.

Module ChartDataPoint.

(** The fields of the object literals that [getDCAAccounts] puts in
    [chartData] (the type is declared in [types/dca]). *)
Record t := {
  timestamp : Z;
  buyVolume : number;
  sellVolume : number;
  buyOrders : nat;
  sellOrders : nat
}.

End ChartDataPoint.

(** ** The outside world and asynchronous methods *)

(** How [dca.getAll()] settles: rejected, or resolved with an array
    ([None] for a null or undefined result). *)
Inductive GetAllResponse :=
| GetAllRejected (e : Thrown)
| GetAllResolved (accounts : option (list DCAAccountType)).

(** The value of [data.data?.[mint]?.price] in the body of the price
    response: missing ([undefined] or [null], also when a link of the chain
    is missing), a number, or a string [text] together with the number
    [Number(text)] that it denotes. *)
Inductive PriceField :=
| NoField
| NumberField (x : number)
| StringField (text : string) (value : number).

(** How the price request settles. [PriceRejected]: [fetch] or
    [response.json()] rejects, or the body is null, so that reading
    [data.data] throws. [PriceBody field]: the body was read. *)
Inductive PriceResponse :=
| PriceRejected (e : Thrown)
| PriceBody (field : PriceField).

Record World := {
  dcaReady : bool;                      (* [this.dca] has been assigned *)
  getAllFeed : nat -> GetAllResponse;   (* how the n-th call of [dca.getAll()] settles *)
  getAllCalls : nat;                    (* calls of [dca.getAll()] made so far *)
  priceFeed : string -> PriceResponse;  (* how the price request for a mint settles *)
  clock : Z                             (* [Date.now()], in milliseconds *)
}.

Definition countCall (w : World) : World :=
  {| dcaReady := dcaReady w; getAllFeed := getAllFeed w;
     getAllCalls := S (getAllCalls w); priceFeed := priceFeed w;
     clock := clock w |}.

Definition advance (ms : Z) (w : World) : World :=
  {| dcaReady := dcaReady w; getAllFeed := getAllFeed w;
     getAllCalls := getAllCalls w; priceFeed := priceFeed w;
     clock := clock w + ms |}.

Inductive Event :=
| EvAttempt (i : nat)                          (* [operation()] called in iteration [i] *)
| EvAttemptFailed (n : nat) (error : Thrown)   (* console.log(`Attempt ${n} failed:`, error) *)
| EvWait (ms : Z)                              (* await of a [setTimeout(resolve, ms)] promise *)
| EvSetTimeoutFetchData (ms : Z).              (* [setTimeout(fetchData, ms)] *)

Definition Async (A : Type) := World -> Result A * World * list Event.

Module Async.

Definition ret {A} (a : A) : Async A := fun w => (Ok a, w, []).

Definition throw {A} (e : Thrown) : Async A := fun w => (Throw e, w, []).

Definition bind {A B} (m : Async A) (k : A -> Async B) : Async B :=
  fun w =>
    match m w with
    | (Ok a, w1, t1) => let '(r, w2, t2) := k a w1 in (r, w2, t1 ++ t2)
    | (Throw e, w1, t1) => (Throw e, w1, t1)
    end.

(** [try { m } catch (error) { handler }] *)
Definition tryCatch {A} (m : Async A) (handler : Thrown -> Async A) : Async A :=
  fun w =>
    match m w with
    | (Ok a, w1, t1) => (Ok a, w1, t1)
    | (Throw e, w1, t1) => let '(r, w2, t2) := handler e w1 in (r, w2, t1 ++ t2)
    end.

(** A synchronous computation that may throw. *)
Definition lift {A} (r : Result A) : Async A := fun w => (r, w, []).

Definition emit (ev : Event) : Async unit := fun w => (Ok tt, w, [ev]).

(** [await new Promise(resolve => setTimeout(resolve, ms))] *)
Definition wait (ms : Z) : Async unit :=
  fun w => (Ok tt, advance ms w, [EvWait ms]).

Definition Date_now : Async Z := fun w => (Ok (clock w), w, []).

End Async.

Notation "'await!' x ':=' m 'in' k" := (Async.bind m (fun x => k))
  (at level 10, x name, m at level 100, k at level 200).
Notation "m ';;' k" := (Async.bind m (fun _ => k))
  (at level 100, k at level 200, right associativity).

(** ** [api/jupiter]: class [JupiterDCAAPI] *)

Definition LOGOS_MINT : string := "HJUfqXoYjC653f2p33i84zdCC3jc4EuVnbruSe5kpump".
Definition CHAOS_MINT : string := "8SgNwESovnbG1oNEaPVhg6CR9mTMSK7jPvcYRe3wpump".

(** [{ buys: ..., sells: ... }] *)
Record Partition := {
  buys : list DCAAccountType;
  sells : list DCAAccountType
}.

(** [{ LOGOS: ..., CHAOS: ... }] *)
Record ByToken (A : Type) := {
  LOGOS : A;
  CHAOS : A
}.
Arguments LOGOS {A} _.
Arguments CHAOS {A} _.

(** [{ price, mint }] *)
Record PriceQuote := {
  price : number;
  mint : string
}.

Module Snapshot.

(** What [getDCAAccounts] resolves to. *)
Record t := {
  positions : list Position.t;
  summary : Dict TokenSummary.t;
  chartData : Dict (list ChartDataPoint.t)
}.

End Snapshot.

Module JupiterDCAAPI.

(** The loop of [withRetry] from iteration [i], with [remaining]
    iterations to go: [for (; i < maxRetries; i++) { try { return await
    operation() } catch (error) { log; lastError = error; wait } } throw
    lastError]. *)
Fixpoint retryFrom {T} (operation : Async T) (remaining i : nat)
    (lastError : Thrown) : Async T :=
  match remaining with
  | O => Async.throw lastError
  | S remaining' =>
      Async.tryCatch
        (Async.emit (EvAttempt i) ;; operation)
        (fun error =>
           Async.emit (EvAttemptFailed (i + 1) error) ;;
           Async.wait (1000 * (Z.of_nat i + 1)) ;;
           retryFrom operation remaining' (S i) error)
  end.

Definition withRetry {T} (operation : Async T) (maxRetries : nat) : Async T :=
  retryFrom operation maxRetries 0 Undefined.

(** [Number(field || 0)]: a missing, zero, NaN or empty-string price
    gives 0. *)
Definition priceOrZero (field : PriceField) : number :=
  match field with
  | NoField => 0%float
  | NumberField x => if truthy x then x else 0%float
  | StringField text value => if String.eqb text "" then 0%float else value
  end.

(** The default value of the parameter [maxRetries]. *)
Definition defaultMaxRetries : nat := 3.

(** The request never fails the caller: a rejection is caught and answered
    with price 0; a missing or falsy price is replaced by 0. *)
Definition getCurrentPrice (mint : string) : Async PriceQuote :=
  fun w =>
    match priceFeed w mint with
    | PriceBody field =>
        let price := priceOrZero field in
        (Ok {| price := price; mint := mint |}, w, [])
    | PriceRejected _ =>
        (Ok {| price := 0%float; mint := mint |}, w, [])
    end.

Definition convertDCAAccount (acc : DCAAccountType) (price : number)
    (token : string) (type : Direction) : Result Position.t :=
  try! inputAmount := BN.toNumber (inAmountPerCycle (account acc)) in
  try! totalAmount :=
    BN.toNumber (BN.sub (inDeposited (account acc)) (inWithdrawn (account acc))) in
  try! amountPerCycle := BN.toNumber (inAmountPerCycle (account acc)) in
  try! remainingCycles := BN.toNumber (cycleFrequency (account acc)) in
  try! cycleFrequency := BN.toNumber (cycleFrequency (account acc)) in
  try! lastUpdate := BN.toNumber (nextCycleAt (account acc)) in
  try! minOut :=
    match minOutAmount (account acc) with
    | Some m => try! n := BN.toNumber m in Ok (Some n)
    | None => Ok None
    end in
  try! estimatedOutput :=
    match type with
    | SELL =>
        try! n := BN.toNumber (inAmountPerCycle (account acc)) in
        Ok (Some ((n / Math_pow_10_6) * price)%float)
    | BUY => Ok None
    end in
  Ok {| Position.id := publicKey acc;
        Position.token := token;
        Position.type := type;
        Position.inputToken := match type with BUY => "USDC" | SELL => token end;
        Position.outputToken := match type with BUY => token | SELL => "USDC" end;
        Position.inputAmount := (inputAmount / Math_pow_10_6)%float;
        Position.totalAmount := (totalAmount / Math_pow_10_6)%float;
        Position.amountPerCycle := (amountPerCycle / Math_pow_10_6)%float;
        Position.remainingCycles := remainingCycles;
        Position.cycleFrequency := cycleFrequency;
        Position.lastUpdate := (lastUpdate * 1000)%float;
        Position.publicKey := publicKey acc;
        Position.targetPrice := (or_default minOut 0 / Math_pow_10_6)%float;
        Position.currentPrice := price;
        Position.priceToken := "USDC";
        Position.estimatedOutput := estimatedOutput |}.

Definition calculateSummaryFromRawAccounts (accountsByToken : ByToken Partition)
    (prices : ByToken number) : Result (Dict TokenSummary.t) :=
  try! logosSellTotal :=
    reduce (fun sum acc =>
              try! n := BN.toNumber (BN.sub (inDeposited (account acc))
                                            (inWithdrawn (account acc))) in
              let volume := (n / Math_pow_10_6)%float in
              let usdcValue := (volume * LOGOS prices)%float in
              Ok (sum + usdcValue)%float)
           0%float (sells (LOGOS accountsByToken)) in
  let logosSellVolumeUSDC := Math_round logosSellTotal in
  try! logosBuyVolume :=
    reduce (fun sum acc =>
              try! n := BN.toNumber (BN.sub (inDeposited (account acc))
                                            (inWithdrawn (account acc))) in
              Ok (sum + n / Math_pow_10_6)%float)
           0%float (buys (LOGOS accountsByToken)) in
  try! logosSellVolume :=
    reduce (fun sum acc =>
              try! n := BN.toNumber (BN.sub (inDeposited (account acc))
                                            (inWithdrawn (account acc))) in
              Ok (sum + n / Math_pow_10_6)%float)
           0%float (sells (LOGOS accountsByToken)) in
  try! logosBuyTotal :=
    reduce (fun sum acc =>
              try! n := BN.toNumber (inAmountPerCycle (account acc)) in
              Ok (sum + n / Math_pow_10_6)%float)
           0%float (buys (LOGOS accountsByToken)) in
  try! chaosBuyVolume :=
    reduce (fun sum acc =>
              try! n := BN.toNumber (BN.sub (inDeposited (account acc))
                                            (inWithdrawn (account acc))) in
              Ok (sum + n / Math_pow_10_6)%float)
           0%float (buys (CHAOS accountsByToken)) in
  try! chaosSellVolume :=
    reduce (fun sum acc =>
              try! n := BN.toNumber (BN.sub (inDeposited (account acc))
                                            (inWithdrawn (account acc))) in
              Ok (sum + n / Math_pow_10_6)%float)
           0%float (sells (CHAOS accountsByToken)) in
  try! chaosBuyTotal :=
    reduce (fun sum acc =>
              try! n := BN.toNumber (inAmountPerCycle (account acc)) in
              Ok (sum + n / Math_pow_10_6)%float)
           0%float (buys (CHAOS accountsByToken)) in
  try! chaosSellTotal :=
    reduce (fun sum acc =>
              try! n := BN.toNumber (BN.sub (inDeposited (account acc))
                                            (inWithdrawn (account acc))) in
              Ok (sum + (n / Math_pow_10_6) * CHAOS prices)%float)
           0%float (sells (CHAOS accountsByToken)) in
  Ok [ ("LOGOS",
        {| TokenSummary.buyOrders := List.length (buys (LOGOS accountsByToken));
           TokenSummary.sellOrders := List.length (sells (LOGOS accountsByToken));
           TokenSummary.buyVolume := logosBuyVolume;
           TokenSummary.sellVolume := logosSellVolume;
           TokenSummary.buyVolumeUSDC := Math_round logosBuyTotal;
           TokenSummary.sellVolumeUSDC := logosSellVolumeUSDC |});
       ("CHAOS",
        {| TokenSummary.buyOrders := List.length (buys (CHAOS accountsByToken));
           TokenSummary.sellOrders := List.length (sells (CHAOS accountsByToken));
           TokenSummary.buyVolume := chaosBuyVolume;
           TokenSummary.sellVolume := chaosSellVolume;
           TokenSummary.buyVolumeUSDC := Math_round chaosBuyTotal;
           TokenSummary.sellVolumeUSDC := Math_round chaosSellTotal |}) ].

(** [this.dca.getAll()] *)
Definition dca_getAll : Async (option (list DCAAccountType)) :=
  fun w =>
    match getAllFeed w (getAllCalls w) with
    | GetAllResolved accounts => (Ok accounts, countCall w, [])
    | GetAllRejected e => (Throw e, countCall w, [])
    end.

(** The operation that [getDCAAccounts] hands to [withRetry]. *)
Definition fetchAllAccounts : Async (list DCAAccountType) :=
  await! accounts := dca_getAll in
  match accounts with
  | None | Some [] => Async.throw (Error "No accounts returned")
  | Some (a :: l) => Async.ret (a :: l)
  end.

(** "2. Initial categorization" *)
Definition categorize (allAccounts : list DCAAccountType) : ByToken Partition :=
  {| LOGOS :=
       {| buys := filter (fun acc => equals (outputMint (account acc)) LOGOS_MINT) allAccounts;
          sells := filter (fun acc => equals (inputMint (account acc)) LOGOS_MINT) allAccounts |};
     CHAOS :=
       {| buys := filter (fun acc => equals (outputMint (account acc)) CHAOS_MINT) allAccounts;
          sells := filter (fun acc => equals (inputMint (account acc)) CHAOS_MINT) allAccounts |} |}.

(** "4. Then process individual positions" *)
Definition convertAll (accountsByToken : ByToken Partition) : Result (list Position.t) :=
  try! logosBuys :=
    JS.map (fun acc => convertDCAAccount acc 0%float "LOGOS" BUY)
           (buys (LOGOS accountsByToken)) in
  try! logosSells :=
    JS.map (fun acc => convertDCAAccount acc 0%float "LOGOS" SELL)
           (sells (LOGOS accountsByToken)) in
  try! chaosBuys :=
    JS.map (fun acc => convertDCAAccount acc 0%float "CHAOS" BUY)
           (buys (CHAOS accountsByToken)) in
  try! chaosSells :=
    JS.map (fun acc => convertDCAAccount acc 0%float "CHAOS" SELL)
           (sells (CHAOS accountsByToken)) in
  Ok (logosBuys ++ logosSells ++ chaosBuys ++ chaosSells).

(** The entry of [chartData] for one token. *)
Definition chartPoint (now : Z) (s : option TokenSummary.t) : Result ChartDataPoint.t :=
  match s with
  | Some s =>
      Ok {| ChartDataPoint.timestamp := now;
            ChartDataPoint.buyVolume := TokenSummary.buyVolume s;
            ChartDataPoint.sellVolume := TokenSummary.sellVolume s;
            ChartDataPoint.buyOrders := TokenSummary.buyOrders s;
            ChartDataPoint.sellOrders := TokenSummary.sellOrders s |}
  | None => Throw (Error "Cannot read properties of undefined")
  end.

(** The outer [try { ... } catch (error) { console.error(...); throw error }]
    rethrows what it catches, so it is left out. *)
Definition getDCAAccounts : Async Snapshot.t :=
  fun w =>
    (if negb (dcaReady w) then Async.throw (Error "DCA SDK not initialized")
     else
       await! allAccounts := withRetry fetchAllAccounts defaultMaxRetries in
       let accountsByToken := categorize allAccounts in
       await! logosPrice := getCurrentPrice LOGOS_MINT in
       await! chaosPrice := getCurrentPrice CHAOS_MINT in
       await! summary :=
         Async.lift (calculateSummaryFromRawAccounts accountsByToken
                       {| LOGOS := price logosPrice; CHAOS := price chaosPrice |}) in
       await! positions := Async.lift (convertAll accountsByToken) in
       let positionsWithPrices :=
         List.map (fun pos =>
                     Position.withCurrentPrice pos
                       (if String.eqb (Position.token pos) "LOGOS"
                        then price logosPrice else price chaosPrice))
                  positions in
       await! logosNow := Async.Date_now in
       await! logosPoint := Async.lift (chartPoint logosNow (get "LOGOS" summary)) in
       await! chaosNow := Async.Date_now in
       await! chaosPoint := Async.lift (chartPoint chaosNow (get "CHAOS" summary)) in
       Async.ret {| Snapshot.positions := positionsWithPrices;
                    Snapshot.summary := summary;
                    Snapshot.chartData :=
                      [ ("LOGOS", [logosPoint]); ("CHAOS", [chaosPoint]) ] |}) w.

End JupiterDCAAPI.

(** ** [components/DCADashboard.tsx]: the state of the component and
    [fetchData] *)

Module DCADashboard.

(** The [useState] cells of the component. *)
Record State := {
  chartData : Dict (list ChartDataPoint.t);
  summaryData : Dict TokenSummary.t;
  positions : list Position.t;
  loading : bool;
  error : option string;
  autoRefresh : bool;
  lastUpdate : Z
}.

Definition setChartData (v : Dict (list ChartDataPoint.t)) (st : State) : State :=
  {| chartData := v; summaryData := summaryData st; positions := positions st;
     loading := loading st; error := error st; autoRefresh := autoRefresh st;
     lastUpdate := lastUpdate st |}.

Definition setSummaryData (v : Dict TokenSummary.t) (st : State) : State :=
  {| chartData := chartData st; summaryData := v; positions := positions st;
     loading := loading st; error := error st; autoRefresh := autoRefresh st;
     lastUpdate := lastUpdate st |}.

Definition setPositions (v : list Position.t) (st : State) : State :=
  {| chartData := chartData st; summaryData := summaryData st; positions := v;
     loading := loading st; error := error st; autoRefresh := autoRefresh st;
     lastUpdate := lastUpdate st |}.

Definition setLoading (v : bool) (st : State) : State :=
  {| chartData := chartData st; summaryData := summaryData st;
     positions := positions st; loading := v; error := error st;
     autoRefresh := autoRefresh st; lastUpdate := lastUpdate st |}.

Definition setError (v : option string) (st : State) : State :=
  {| chartData := chartData st; summaryData := summaryData st;
     positions := positions st; loading := loading st; error := v;
     autoRefresh := autoRefresh st; lastUpdate := lastUpdate st |}.

Definition setLastUpdate (v : Z) (st : State) : State :=
  {| chartData := chartData st; summaryData := summaryData st;
     positions := positions st; loading := loading st; error := error st;
     autoRefresh := autoRefresh st; lastUpdate := v |}.

(** The state on mount. *)
Definition initialState (now : Z) : State :=
  {| chartData := []; summaryData := []; positions := []; loading := true;
     error := None; autoRefresh := true; lastUpdate := now |}.

(** One run of [fetchData] from the state [st]; it resolves to the state
    after its last [set...] call. *)
Definition fetchData (st : State) : Async State :=
  let st := setLoading true st in
  let st := setError None st in
  Async.tryCatch
    (await! data := JupiterDCAAPI.getDCAAccounts in
     if negb (truthy_object (Snapshot.positions data))
        || negb (truthy_object (Snapshot.summary data))
     then Async.throw (Error "Invalid data received")
     else
       let st := setPositions (Snapshot.positions data) st in
       let st := setSummaryData (Snapshot.summary data) st in
       let st := setChartData (Snapshot.chartData data) st in
       await! now := Async.Date_now in
       let st := setLastUpdate now st in
       let st := setLoading false st in
       Async.ret st)
    (fun err =>
       let st := setError (Some "Failed to fetch data. Retrying...") st in
       Async.emit (EvSetTimeoutFetchData 2000) ;;
       Async.ret st).

End DCADashboard.

(** ** Vocabulary of the statements *)

(** The tracked tokens. *)
Inductive Tracked := Logos | Chaos.

Definition symbol (T : Tracked) : string :=
  match T with Logos => "LOGOS" | Chaos => "CHAOS" end.

Definition mintOf (T : Tracked) : string :=
  match T with Logos => LOGOS_MINT | Chaos => CHAOS_MINT end.

(** An account buys [T] when [T] is its output token, sells [T] when [T] is
    its input token. *)
Definition isBuyOf (T : Tracked) (acc : DCAAccountType) : bool :=
  String.eqb (outputMint (account acc)) (mintOf T).

Definition isSellOf (T : Tracked) (acc : DCAAccountType) : bool :=
  String.eqb (inputMint (account acc)) (mintOf T).

Definition buysOf (T : Tracked) (raw : list DCAAccountType) : list DCAAccountType :=
  filter (isBuyOf T) raw.

Definition sellsOf (T : Tracked) (raw : list DCAAccountType) : list DCAAccountType :=
  filter (isSellOf T) raw.

(** The number of elements of a list that satisfy a test. *)
Fixpoint countIf {A} (p : A -> bool) (l : list A) : nat :=
  match l with
  | [] => O
  | a :: l' => if p a then S (countIf p l') else countIf p l'
  end.

(** An input or output mint of the account is a tracked mint. *)
Definition matchesTracked (acc : DCAAccountType) : bool :=
  isBuyOf Logos acc || isSellOf Logos acc || isBuyOf Chaos acc || isSellOf Chaos acc.

(** Both mints of the account are tracked mints: the account is in two
    partitions. *)
Definition matchesTwice (acc : DCAAccountType) : bool :=
  (isBuyOf Logos acc || isBuyOf Chaos acc) && (isSellOf Logos acc || isSellOf Chaos acc).

(** The sum of a sequence of numbers, added from the left, from 0. *)
Definition sumOf (xs : list number) : number :=
  fold_left PrimFloat.add xs 0%float.

(** [(inDeposited - inWithdrawn) / 10^6] *)
Definition nativeVolume (acc : DCAAccountType) : number :=
  (BN.number_of (inDeposited (account acc) - inWithdrawn (account acc))
   / Math_pow_10_6)%float.

(** [inAmountPerCycle / 10^6] *)
Definition perCycleAmount (acc : DCAAccountType) : number :=
  (BN.number_of (inAmountPerCycle (account acc)) / Math_pow_10_6)%float.

(** The accounts that the retried fetch of a cycle started in [w] delivers. *)
Definition fetchedAccounts (w : World) : option (list DCAAccountType) :=
  match JupiterDCAAPI.withRetry JupiterDCAAPI.fetchAllAccounts
          JupiterDCAAPI.defaultMaxRetries w with
  | (Ok raw, _, _) => Some raw
  | (Throw _, _, _) => None
  end.

(** The price that [getCurrentPrice] answers for a tracked token in [w]. *)
Definition quotedPrice (w : World) (T : Tracked) : number :=
  match JupiterDCAAPI.getCurrentPrice (mintOf T) w with
  | (Ok q, _, _) => price q
  | (Throw _, _, _) => 0%float
  end.

(** The world [w] with another answer to the price request for [m]. *)
Definition withPriceResponse (m : string) (r : PriceResponse) (w : World) : World :=
  {| dcaReady := dcaReady w; getAllFeed := getAllFeed w;
     getAllCalls := getAllCalls w;
     priceFeed := fun m' => if String.eqb m' m then r else priceFeed w m';
     clock := clock w |}.

(** The price request fails or carries no price. *)
Definition noPrice (r : PriceResponse) : bool :=
  match r with
  | PriceRejected _ => true
  | PriceBody NoField => true
  | PriceBody _ => false
  end.

(** The world [w] with another feed of [dca.getAll()]. *)
Definition withGetAllFeed (feed : nat -> GetAllResponse) (w : World) : World :=
  {| dcaReady := dcaReady w; getAllFeed := feed;
     getAllCalls := getAllCalls w; priceFeed := priceFeed w;
     clock := clock w |}.

(** [dca.getAll()] resolved with no accounts. *)
Definition emptyResult (r : GetAllResponse) : bool :=
  match r with
  | GetAllResolved None | GetAllResolved (Some []) => true
  | _ => false
  end.

(** An empty result read as the rejection that [fetchAllAccounts] turns it
    into. *)
Definition asRejection (r : GetAllResponse) : GetAllResponse :=
  if emptyResult r then GetAllRejected (Error "No accounts returned") else r.

(** Events of a trace. *)
Definition isAttempt (ev : Event) : bool :=
  match ev with EvAttempt _ => true | _ => false end.

Definition attempts (tr : list Event) : nat := countIf isAttempt tr.

(** The wait, in milliseconds, that immediately precedes the attempt of
    iteration [i] in a trace: the [EvWait] between the failure of the
    previous attempt and [EvAttempt i]; [None] when the trace has no such
    attempt, [Some 0] when nothing is waited for before it. *)
Fixpoint waitBefore (i : nat) (pending : Z) (tr : list Event) : option Z :=
  match tr with
  | [] => None
  | EvAttempt j :: tr' =>
      if Nat.eqb i j then Some pending else waitBefore i 0 tr'
  | EvWait ms :: tr' => waitBefore i (pending + ms) tr'
  | _ :: tr' => waitBefore i pending tr'
  end.

Definition isFetchDataTimer (ev : Event) : bool :=
  match ev with EvSetTimeoutFetchData _ => true | _ => false end.

(** ** Sample data *)

Definition USDC_MINT : string := "EPjFWdd5AufqSSqeM2qN1xzybapC8G4wEGGkZwyTDt1v".

Definition sampleAccount (key input output : string) (deposited withdrawn perCycle : Z)
    : DCAAccountType :=
  {| publicKey := key;
     account :=
       {| user := "user"; inputMint := input; outputMint := output;
          idx := 0; nextCycleAt := 1700000000;
          inDeposited := deposited; inWithdrawn := withdrawn;
          outWithdrawn := 0; inUsed := 0; inAmountPerCycle := perCycle;
          cycleFrequency := 60; bump := 255;
          minOutAmount := None; maxOutAmount := None |} |}.

Definition buyLogos : DCAAccountType :=
  sampleAccount "buy-logos" USDC_MINT LOGOS_MINT 1000000 0 1000000.

Definition sellLogos : DCAAccountType :=
  sampleAccount "sell-logos" LOGOS_MINT USDC_MINT 2000000 0 1000000.

Definition sellChaos : DCAAccountType :=
  sampleAccount "sell-chaos" CHAOS_MINT USDC_MINT 500000 0 500000.

(** An order that swaps one tracked token for the other. *)
Definition logosToChaos : DCAAccountType :=
  sampleAccount "logos-to-chaos" LOGOS_MINT CHAOS_MINT 3000000 0 1000000.

Definition untracked : DCAAccountType :=
  sampleAccount "other" USDC_MINT "So11111111111111111111111111111111111111112" 7000000 0 1000000.

(** A world in which every call of [dca.getAll()] resolves with [accounts]
    and the prices of LOGOS and CHAOS are [pl] and [pc]. *)
Definition steadyWorld (accounts : list DCAAccountType) (pl pc : PriceResponse) : World :=
  {| dcaReady := true;
     getAllFeed := fun _ => GetAllResolved (Some accounts);
     getAllCalls := 0;
     priceFeed := fun m => if String.eqb m LOGOS_MINT then pl else pc;
     clock := 1000 |}.

(** A world in which the calls of [dca.getAll()] settle as listed, and as
    [rest] once the list is used up. *)
Definition scriptedWorld (script : list GetAllResponse) (rest : GetAllResponse) : World :=
  {| dcaReady := true;
     getAllFeed := fun n => nth n script rest;
     getAllCalls := 0;
     priceFeed := fun _ => PriceBody (NumberField 3%float);
     clock := 1000 |}.

(** ** The results of the synchronous part, when nothing throws *)

Definition fits53 (z : Z) : bool := Z.abs z <? 2 ^ 53.

Definition volumeSafe (acc : DCAAccountType) : bool :=
  fits53 (inDeposited (account acc) - inWithdrawn (account acc)).

Definition perCycleSafe (acc : DCAAccountType) : bool :=
  fits53 (inAmountPerCycle (account acc)).

(** Every [toNumber] of [convertDCAAccount] succeeds on the account. *)
Definition convertSafe (acc : DCAAccountType) : bool :=
  perCycleSafe acc && volumeSafe acc
  && fits53 (cycleFrequency (account acc))
  && fits53 (nextCycleAt (account acc))
  && match minOutAmount (account acc) with
     | Some m => fits53 m
     | None => true
     end.

(** Every [toNumber] of [calculateSummaryFromRawAccounts] succeeds. *)
Definition summarySafe (abt : ByToken Partition) : bool :=
  forallb volumeSafe (sells (LOGOS abt))
  && forallb volumeSafe (buys (LOGOS abt))
  && forallb perCycleSafe (buys (LOGOS abt))
  && forallb volumeSafe (buys (CHAOS abt))
  && forallb volumeSafe (sells (CHAOS abt))
  && forallb perCycleSafe (buys (CHAOS abt)).

Definition convertAllSafe (abt : ByToken Partition) : bool :=
  forallb convertSafe (buys (LOGOS abt))
  && forallb convertSafe (sells (LOGOS abt))
  && forallb convertSafe (buys (CHAOS abt))
  && forallb convertSafe (sells (CHAOS abt)).

(** The summary of one token from its two partitions and its price. *)
Definition summaryFor (b s : list DCAAccountType) (p : number) : TokenSummary.t :=
  {| TokenSummary.buyOrders := List.length b;
     TokenSummary.sellOrders := List.length s;
     TokenSummary.buyVolume := sumOf (List.map nativeVolume b);
     TokenSummary.sellVolume := sumOf (List.map nativeVolume s);
     TokenSummary.buyVolumeUSDC := Math_round (sumOf (List.map perCycleAmount b));
     TokenSummary.sellVolumeUSDC :=
       Math_round (sumOf (List.map (fun acc => (nativeVolume acc * p)%float) s)) |}.

(** The position that [convertDCAAccount] builds from a safe account. *)
Definition positionFor (acc : DCAAccountType) (p : number) (token : string)
    (type : Direction) : Position.t :=
  {| Position.id := publicKey acc;
     Position.token := token;
     Position.type := type;
     Position.inputToken := match type with BUY => "USDC" | SELL => token end;
     Position.outputToken := match type with BUY => token | SELL => "USDC" end;
     Position.inputAmount := perCycleAmount acc;
     Position.totalAmount := nativeVolume acc;
     Position.amountPerCycle := perCycleAmount acc;
     Position.remainingCycles := BN.number_of (cycleFrequency (account acc));
     Position.cycleFrequency := BN.number_of (cycleFrequency (account acc));
     Position.lastUpdate := (BN.number_of (nextCycleAt (account acc)) * 1000)%float;
     Position.publicKey := publicKey acc;
     Position.targetPrice :=
       (or_default (option_map BN.number_of (minOutAmount (account acc))) 0
        / Math_pow_10_6)%float;
     Position.currentPrice := p;
     Position.priceToken := "USDC";
     Position.estimatedOutput :=
       match type with
       | SELL => Some (perCycleAmount acc * p)%float
       | BUY => None
       end |}.

(** The price of a token in the [prices] object. *)
Definition priceIn (prices : ByToken number) (T : Tracked) : number :=
  match T with Logos => LOGOS prices | Chaos => CHAOS prices end.

(** The sum of [buyOrders + sellOrders] over the entries of a summary. *)
Definition totalOrders (d : Dict TokenSummary.t) : nat :=
  fold_right (fun entry n =>
                (TokenSummary.buyOrders (snd entry)
                 + TokenSummary.sellOrders (snd entry) + n)%nat)
             O d.

(** An operation that changes the world and produces no event. *)
Definition silently {T} (op : World -> Result T * World) : Async T :=
  fun w => let '(r, w1) := op w in (r, w1, []).

(** A finite value: a zero or a finite non-zero number. *)
Definition sf_finite (x : spec_float) : bool :=
  match x with
  | S754_zero _ | S754_finite _ _ _ => true
  | _ => false
  end.

(** A zero, or a mantissa of at most 54 binary digits with an exponent of at
    most 107: what the conversion of a 53-bit integer gives. *)
Definition sf_small (x : spec_float) : Prop :=
  match x with
  | S754_zero _ => True
  | S754_finite _ m e => Zdigits2 (Zpos m) <= 54 /\ e <= 107
  | _ => False
  end.

(** The snapshot of a cycle that fetched [raw], was quoted the prices [pl]
    and [pc], and read the clock at [now]. *)
Definition snapshotFor (raw : list DCAAccountType) (pl pc : number) (now : Z)
    : Snapshot.t :=
  let abt := JupiterDCAAPI.categorize raw in
  let logos := summaryFor (buys (LOGOS abt)) (sells (LOGOS abt)) pl in
  let chaos := summaryFor (buys (CHAOS abt)) (sells (CHAOS abt)) pc in
  let point s :=
    {| ChartDataPoint.timestamp := now;
       ChartDataPoint.buyVolume := TokenSummary.buyVolume s;
       ChartDataPoint.sellVolume := TokenSummary.sellVolume s;
       ChartDataPoint.buyOrders := TokenSummary.buyOrders s;
       ChartDataPoint.sellOrders := TokenSummary.sellOrders s |} in
  {| Snapshot.positions :=
       List.map (fun pos =>
                   Position.withCurrentPrice pos
                     (if String.eqb (Position.token pos) "LOGOS" then pl else pc))
                (List.map (fun acc => positionFor acc 0%float "LOGOS" BUY) (buys (LOGOS abt))
                 ++ List.map (fun acc => positionFor acc 0%float "LOGOS" SELL) (sells (LOGOS abt))
                 ++ List.map (fun acc => positionFor acc 0%float "CHAOS" BUY) (buys (CHAOS abt))
                 ++ List.map (fun acc => positionFor acc 0%float "CHAOS" SELL) (sells (CHAOS abt)));
     Snapshot.summary := [ ("LOGOS", logos); ("CHAOS", chaos) ];
     Snapshot.chartData := [ ("LOGOS", [point logos]); ("CHAOS", [point chaos]) ] |}.

(** The fetch and its retries change the call count and the clock only. *)
Definition sameOutside (w w1 : World) : Prop :=
  dcaReady w1 = dcaReady w /\ getAllFeed w1 = getAllFeed w
  /\ priceFeed w1 = priceFeed w.

(** The snapshot that a cycle started in [w] resolves to, if it does. *)
Definition publishedBy (w : World) : option Snapshot.t :=
  match JupiterDCAAPI.getDCAAccounts w with
  | (Ok snap, _, _) => Some snap
  | (Throw _, _, _) => None
  end.

(** Direction, per-cycle amount, current price and estimated output of the
    published positions. *)
Definition outputsOf (snap : Snapshot.t)
    : list (Direction * number * number * option number) :=
  List.map (fun p => (Position.type p, Position.amountPerCycle p,
                      Position.currentPrice p, Position.estimatedOutput p))
           (Snapshot.positions snap).

(** The world [w] in which every empty result of [dca.getAll()] is replaced
    by a rejection with the error that [fetchAllAccounts] throws for it. *)
Definition rejectingEmpties (w : World) : World :=
  withGetAllFeed (fun n => asRejection (getAllFeed w n)) w.

(** ** The rest of [JupiterDCAAPI]: [initDCA] *)



(** ** The rest of [components/DCADashboard.tsx] *)

Module DCADashboardView.

(** [const formatVolume = (volume: number) => Math.round(volume)] *)
Definition formatVolume (volume : number) : number := Math_round volume.

(** One entry of [datasets] in the object handed to the [Line] chart. *)
Record Dataset := {
  label : string;
  data : list number;
  borderColor : string;
  backgroundColor : string;
  tension : number;
  fill : bool;
  borderWidth : Z
}.

Record LineData := {
  labels : list string;
  datasets : list Dataset
}.

(** [n.toString()] of a non-negative integer. *)
Definition toString (n : nat) : string :=
  NilEmpty.string_of_uint (Nat.to_uint n).

Fixpoint padding (k : nat) (c : ascii) : string :=
  match k with
  | O => EmptyString
  | S k' => String c (padding k' c)
  end.

(** [s.padStart(targetLength, c)] with a one-character pad string. *)
Definition padStart (targetLength : nat) (c : ascii) (s : string) : string :=
  String.append (padding (targetLength - String.length s) c) s.

(** The label of a chart point; [getHours] and [getMinutes] are those of
    [new Date(timestamp)] in the time zone of the browser. *)
Definition pointLabel (getHours getMinutes : Z -> nat) (timestamp : Z) : string :=
  String.append (toString (getHours timestamp))
    (String.append ":" (padStart 2 "0"%char (toString (getMinutes timestamp)))).

(** [createChartData(token)], reading the [chartData] cell of the state. *)
Definition createChartData (getHours getMinutes : Z -> nat)
    (st : DCADashboard.State) (token : string) : LineData :=
  match get token (DCADashboard.chartData st) with
  | None | Some [] => {| labels := []; datasets := [] |}
  | Some points =>
      {| labels :=
           List.map (fun point =>
                       pointLabel getHours getMinutes (ChartDataPoint.timestamp point))
                    points;
         datasets :=
           [ {| label := "Buy Volume";
                data := List.map ChartDataPoint.buyVolume points;
                borderColor := "#4CAF50";
                backgroundColor := "rgba(76, 175, 80, 0.1)";
                tension := 0x1.999999999999ap-2%float;
                fill := true;
                borderWidth := 2 |};
             {| label := "Sell Volume";
                data := List.map ChartDataPoint.sellVolume points;
                borderColor := "#f44336";
                backgroundColor := "rgba(244, 67, 54, 0.1)";
                tension := 0x1.999999999999ap-2%float;
                fill := true;
                borderWidth := 2 |} ] |}
  end.

(** [positions.filter(position => position.token === token)]: the cards
    of one section. *)
Definition sectionPositions (token : string) (st : DCADashboard.State)
    : list Position.t :=
  filter (fun position => String.eqb (Position.token position) token)
         (DCADashboard.positions st).

(** What a JSX child [{guard && (<div>...</div>)}] gives: nothing when the
    guard is [undefined], the guard itself, shown as text, when it is a falsy
    number, the element when it is truthy. *)
Inductive Child (A : Type) :=
| Nothing
| BareNumber (x : number)
| Element (element : A).
Arguments Nothing {A}.
Arguments BareNumber {A} x.
Arguments Element {A} element.

Definition guarded {A} (guard : option number) (element : A) : Child A :=
  match guard with
  | None => Nothing
  | Some x => if truthy x then Element element else BareNumber x
  end.

(** A line [<div>title: {value.toFixed(...)} {unit}</div>]: the value that is
    formatted and the unit that follows it. *)
Record PriceLine := {
  value : number;
  unit : string
}.

(** The block under the card of a position: the target price, and below it
    the current price and the estimated output, each behind its guard. *)
Record PriceBlock := {
  targetLine : PriceLine;
  currentLine : Child PriceLine;
  estimatedLine : Child PriceLine
}.

Definition priceDetails (position : Position.t) : Child PriceBlock :=
  guarded (Some (Position.targetPrice position))
    {| targetLine :=
         {| value := Position.targetPrice position;
            unit := Position.priceToken position |};
       currentLine :=
         guarded (Some (Position.currentPrice position))
           {| value := Position.currentPrice position;
              unit := Position.priceToken position |};
       estimatedLine :=
         match Position.estimatedOutput position with
         | Some x =>
             guarded (Some x)
               {| value := x; unit := Position.outputToken position |}
         | None => Nothing
         end |}.

(** What the component returns: the error message alone when [error] is
    truthy, the dashboard (with the spinner when [loading]) otherwise. *)
Inductive Screen :=
| ErrorScreen (message : string)
| DashboardScreen (spinner : bool).

Definition render (st : DCADashboard.State) : Screen :=
  match DCADashboard.error st with
  | Some message =>
      if String.eqb message "" then DashboardScreen (DCADashboard.loading st)
      else ErrorScreen message
  | None => DashboardScreen (DCADashboard.loading st)
  end.

End DCADashboardView.

(** ** More vocabulary *)

(** The milliseconds waited in a trace. *)
Definition totalWait (tr : list Event) : Z :=
  fold_right (fun ev t => match ev with EvWait ms => ms + t | _ => t end) 0 tr.

(** The world in which the attempt of iteration [i + k] is made, when the
    [k] attempts from iteration [i], the first one made in [w], all throw. *)
Fixpoint afterFailures {T} (op : World -> Result T * World) (k i : nat) (w : World)
    : option World :=
  match k with
  | O => Some w
  | S k' =>
      match op w with
      | (Throw _, w1) =>
          afterFailures op k' (S i) (advance (1000 * (Z.of_nat i + 1)) w1)
      | (Ok _, _) => None
      end
  end.


Definition sameDirection (a b : Direction) : bool :=
  match a, b with
  | BUY, BUY | SELL, SELL => true
  | _, _ => false
  end.

(** The position is one of token [T] and direction [dir]. *)
Definition isPositionOf (T : Tracked) (dir : Direction) (p : Position.t) : bool :=
  String.eqb (Position.token p) (symbol T) && sameDirection (Position.type p) dir.


(** The summary of a token with no order. *)
Definition emptySummary : TokenSummary.t :=
  {| TokenSummary.buyOrders := 0; TokenSummary.sellOrders := 0;
     TokenSummary.buyVolume := 0%float; TokenSummary.sellVolume := 0%float;
     TokenSummary.buyVolumeUSDC := 0%float;
     TokenSummary.sellVolumeUSDC := 0%float |}.

(** An account whose deposit does not fit in 53 bits. *)
Definition hugeAccount (input output : string) : DCAAccountType :=
  sampleAccount "huge" input output (2 ^ 60) 0 1000000.

(** The published position of an account in the partition of token [T] and
    direction [dir]: converted with price 0, then given the price [p]. *)
Definition publishedPosition (T : Tracked) (dir : Direction) (p : number)
    (acc : DCAAccountType) : Position.t :=
  Position.withCurrentPrice (positionFor acc 0%float (symbol T) dir) p.

(** A SELL order of LOGOS with a minimum output of 1.5 USDC per cycle. *)
Definition sellLogosWithTarget : DCAAccountType :=
  {| publicKey := "sell-logos-target";
     account :=
       {| user := "user"; inputMint := LOGOS_MINT; outputMint := USDC_MINT;
          idx := 0; nextCycleAt := 1700000000;
          inDeposited := 2000000; inWithdrawn := 0;
          outWithdrawn := 0; inUsed := 0; inAmountPerCycle := 1000000;
          cycleFrequency := 60; bump := 255;
          minOutAmount := Some 1500000; maxOutAmount := None |} |}.

(** * Properties *)

(** ** Binary64 arithmetic on converted amounts

    The quotient of a 53-bit integer by [10^6] is a finite number, so its
    product with 0 is a zero and adding it to 0 gives 0. The bounds below are
    coarse: they only have to stay far from the largest exponent. *)

Module FloatFacts.

Lemma digits2_pos_log2 p : Zpos (digits2_pos p) = Z.log2 (Zpos p) + 1.
Proof.
  induction p as [p IH|p IH|]; cbn [digits2_pos];
    rewrite ?Pos2Z.inj_succ, ?IH; try reflexivity.
  - rewrite (Z.log2_succ_double (Zpos p)) at 1 by lia.
    change (Z.pos p~1) with (2 * Z.pos p + 1). lia.
  - change (Z.pos p~0) with (2 * Z.pos p). rewrite Z.log2_double by lia. lia.
Qed.

Lemma Zdigits2_nonneg m : 0 <= Zdigits2 m.
Proof. destruct m; cbn; lia. Qed.

Lemma Zdigits2_le a b : 0 <= a <= b -> Zdigits2 a <= Zdigits2 b.
Proof.
  intros [Ha Hab]. destruct a as [|a|a]; [apply Zdigits2_nonneg| |lia].
  destruct b as [|b|b]; try lia. cbn [Zdigits2]. rewrite !digits2_pos_log2.
  pose proof (Z.log2_le_mono (Zpos a) (Zpos b) Hab). lia.
Qed.

Lemma Zdigits2_succ a : 0 <= a -> Zdigits2 (a + 1) <= Zdigits2 a + 1.
Proof.
  intros Ha. destruct a as [|a|a]; [now cbv| |lia].
  assert (exists q, Zpos a + 1 = Zpos q) as [q Hq]
    by (exists (a + 1)%positive; lia).
  rewrite Hq. cbn [Zdigits2]. rewrite !digits2_pos_log2. rewrite <- Hq.
  pose proof (Z.log2_succ_le (Zpos a)) as H. rewrite <- Z.add_1_r in H. lia.
Qed.

Lemma Zdigits2_lt_pow2 m k : 0 <= k -> 0 <= m < 2 ^ k -> Zdigits2 m <= k.
Proof.
  intros Hk [Hm Hlt]. destruct m as [|p|p]; [exact Hk| |lia].
  cbn [Zdigits2]. rewrite digits2_pos_log2.
  pose proof (proj1 (Z.log2_lt_pow2 (Zpos p) k ltac:(lia)) Hlt). lia.
Qed.

Lemma digits2_pos_iter_xO m d :
  Zpos (digits2_pos (Pos.iter xO m d)) = Zpos (digits2_pos m) + Zpos d.
Proof.
  induction d as [|d IH] using Pos.peano_ind.
  - cbn. lia.
  - rewrite Pos.iter_succ. cbn [digits2_pos]. rewrite Pos2Z.inj_succ, IH. lia.
Qed.

(** Shifting right keeps a mantissa between 0 and what it was. *)
Lemma shr_1_bounds mrs : 0 <= shr_m mrs -> 0 <= shr_m (shr_1 mrs) <= shr_m mrs.
Proof.
  destruct mrs as [m r s]. cbn [shr_m]. intros Hm.
  destruct m as [|[p|p|]|p]; cbn; lia.
Qed.

Lemma iter_shr_1_bounds p : forall mrs, 0 <= shr_m mrs ->
  0 <= shr_m (iter_pos shr_1 p mrs) <= shr_m mrs.
Proof.
  induction p as [p IH|p IH|]; intros mrs Hm; cbn [iter_pos].
  - pose proof (shr_1_bounds mrs Hm) as H1.
    pose proof (IH _ (proj1 H1)) as H2. pose proof (IH _ (proj1 H2)) as H3. lia.
  - pose proof (IH _ Hm) as H2. pose proof (IH _ (proj1 H2)) as H3. lia.
  - apply shr_1_bounds, Hm.
Qed.

Lemma shr_record_of_loc_m m l : shr_m (shr_record_of_loc m l) = m.
Proof. destruct l as [|[]]; reflexivity. Qed.

Lemma shr_fexp_bounds m e l K E :
  0 <= m -> Zdigits2 m <= K -> e <= E -> 0 <= K -> -1074 <= E ->
  let '(mrs, e') := shr_fexp prec emax m e l in
  0 <= shr_m mrs <= m /\ e' <= E + K.
Proof.
  intros Hm HK HE HK0 HE0. unfold shr_fexp, shr.
  pose proof (Zdigits2_nonneg m) as Hd.
  assert (Hf : fexp prec emax (Zdigits2 m + e) <= E + K)
    by (unfold fexp, emin, prec, emax; lia).
  destruct (fexp prec emax (Zdigits2 m + e) - e) as [|p|p] eqn:En.
  - rewrite shr_record_of_loc_m. lia.
  - pose proof (iter_shr_1_bounds p (shr_record_of_loc m l)) as H.
    rewrite shr_record_of_loc_m in H. specialize (H Hm). split; [exact H|lia].
  - rewrite shr_record_of_loc_m. lia.
Qed.

Lemma round_nearest_even_bounds m l :
  0 <= m -> m <= round_nearest_even m l <= m + 1.
Proof.
  intros Hm. destruct l as [|[]]; cbn; try lia. destruct (Z.even m); lia.
Qed.

(** Rounding a mantissa of at most [K] digits with an exponent of at most
    [E] does not overflow when [E + 2K + 1] is below the largest exponent. *)
Lemma binary_round_aux_finite s m e l K E :
  0 <= m -> Zdigits2 m <= K -> e <= E -> 0 <= K -> -1074 <= E ->
  E + 2 * K + 1 <= 971 ->
  match binary_round_aux prec emax s m e l with
  | S754_zero s' => s' = s
  | S754_finite s' m' e' => s' = s /\ Zpos m' <= m + 1 /\ e' <= E + 2 * K + 1
  | _ => False
  end.
Proof.
  intros Hm HK HE HK0 HE0 Hb. unfold binary_round_aux.
  pose proof (shr_fexp_bounds m e l K E Hm HK HE HK0 HE0) as H1.
  destruct (shr_fexp prec emax m e l) as [mrs' e'].
  destruct H1 as [Hm' He'].
  set (m2 := round_nearest_even (shr_m mrs') (loc_of_shr_record mrs')).
  pose proof (round_nearest_even_bounds (shr_m mrs') (loc_of_shr_record mrs')
                (proj1 Hm')) as Hm2.
  fold m2 in Hm2.
  assert (Hd2 : Zdigits2 m2 <= K + 1).
  { transitivity (Zdigits2 (m + 1)); [apply Zdigits2_le; lia|].
    pose proof (Zdigits2_succ m Hm). lia. }
  pose proof (shr_fexp_bounds m2 e' loc_Exact (K + 1) (E + K)) as H2.
  destruct (shr_fexp prec emax m2 e' loc_Exact) as [mrs'' e''].
  destruct H2 as [Hm'' He'']; try lia.
  destruct (shr_m mrs'') as [|q|q] eqn:Eq; [reflexivity| |lia].
  replace (e'' <=? emax - prec) with true
    by (symmetry; apply Z.leb_le; unfold emax, prec; lia).
  repeat split; lia.
Qed.

Lemma binary_normalize_small z :
  0 <= z < 2 ^ 53 -> sf_small (binary_normalize prec emax z 0 false).
Proof.
  intros [Hz Hlt]. destruct z as [|m|m]; [exact I| |lia].
  cbn [binary_normalize]. unfold binary_round.
  pose proof (Zdigits2_lt_pow2 (Zpos m) 53 ltac:(lia) ltac:(lia)) as Hd.
  cbn [Zdigits2] in Hd.
  assert (Hal : let '(mz, ez) :=
                  shl_align m 0 (fexp prec emax (Zpos (digits2_pos m) + 0)) in
                Zdigits2 (Zpos mz) <= 53 /\ ez <= 0).
  { unfold shl_align.
    destruct (fexp prec emax (Z.pos (digits2_pos m) + 0) - 0) as [|d|d] eqn:Ed;
      cbn [Zdigits2]; try lia.
    rewrite digits2_pos_iter_xO. unfold fexp, emin, prec, emax in *. lia. }
  destruct (shl_align m 0 (fexp prec emax (Zpos (digits2_pos m) + 0))) as [mz ez].
  destruct Hal as [Hdz Hez].
  pose proof (binary_round_aux_finite false (Zpos mz) ez loc_Exact 53 0
                ltac:(lia) Hdz Hez ltac:(lia) ltac:(lia) ltac:(lia)) as H.
  destruct (binary_round_aux prec emax false (Zpos mz) ez loc_Exact)
    as [s|s| |s m' e']; try contradiction; [exact I|].
  destruct H as (_ & Hm' & He'). cbn [sf_small]. split; [|lia].
  transitivity (Zdigits2 (Zpos mz + 1)); [apply Zdigits2_le; lia|].
  pose proof (Zdigits2_succ (Zpos mz) ltac:(lia)). lia.
Qed.

Lemma SFopp_small x : sf_small x -> sf_small (SFopp x).
Proof. destruct x; cbn; auto. Qed.

Lemma number_of_small z :
  Z.abs z < 2 ^ 53 -> sf_small (Prim2SF (BN.number_of z)).
Proof.
  intros Hz. unfold BN.number_of.
  assert (Hconv : forall n, 0 <= n < 2 ^ 53 ->
            sf_small (Prim2SF (PrimFloat.of_uint63 (Uint63.of_Z n)))).
  { intros n Hn. rewrite FloatAxioms.of_uint63_spec, Uint63.of_Z_spec.
    rewrite Z.mod_small; [apply binary_normalize_small; exact Hn|].
    split; [lia|]. apply Z.lt_trans with (2 ^ 53); [lia|reflexivity]. }
  destruct (z <? 0) eqn:Eneg.
  - rewrite FloatAxioms.opp_spec. apply SFopp_small, Hconv.
    apply Z.ltb_lt in Eneg. lia.
  - apply Hconv. apply Z.ltb_ge in Eneg. lia.
Qed.

Lemma SFdiv_small_pow_10_6 x :
  sf_small x -> sf_finite (SF64div x (Prim2SF Math_pow_10_6)) = true.
Proof.
  intros Hx.
  change (Prim2SF Math_pow_10_6) with (S754_finite false 8589934592000000 (-33)).
  destruct x as [s|s| |s m e]; try contradiction; [reflexivity|].
  destruct Hx as [Hd He]. unfold SF64div, SFdiv, SFdiv_core_binary.
  set (my := 8589934592000000%positive).
  set (e0 := Z.min (fexp prec emax
                      (Zdigits2 (Zpos m) + e - (Zdigits2 (Zpos my) + -33)))
                   (e - -33)).
  set (sh := e - -33 - e0).
  set (m' := match sh with
             | Z.pos _ => Z.shiftl (Zpos m) sh
             | 0 => Zpos m
             | Z.neg _ => 0
             end).
  assert (Hdy : Zdigits2 (Zpos my) = 53) by reflexivity.
  pose proof (Zdigits2_nonneg (Zpos m)) as Hd0.
  assert (He0 : e0 <= 140) by (unfold e0; lia).
  assert (Hsh : 0 <= sh <= 106).
  { unfold sh, e0. rewrite Hdy. unfold fexp, emin, prec, emax.
    assert (1 <= Zdigits2 (Zpos m)) by (cbn; lia). lia. }
  assert (Hm' : 0 <= m' /\ Zdigits2 m' <= 160).
  { unfold m'. destruct sh as [|p|p] eqn:Esh; [cbn [Zdigits2] in *; lia| |lia].
    rewrite Z.shiftl_mul_pow2 by lia. split; [lia|].
    apply Zdigits2_lt_pow2; [lia|]. split; [lia|].
    apply Z.lt_le_trans with (2 ^ 54 * 2 ^ Zpos p).
    - apply Z.mul_lt_mono_pos_r; [lia|].
      cbn [Zdigits2] in Hd. rewrite digits2_pos_log2 in Hd.
      apply Z.log2_lt_pow2; lia.
    - rewrite <- Z.pow_add_r by lia. apply Z.pow_le_mono_r; lia. }
  destruct Hm' as [Hm'0 Hm'd].
  pose proof (Z.div_eucl_eq m' (Zpos my) ltac:(lia)) as Hdiv.
  pose proof (Z.mod_pos_bound m' (Zpos my) ltac:(lia)) as Hmod.
  unfold Z.modulo in Hmod.
  destruct (Z.div_eucl m' (Zpos my)) as [q r].
  assert (Hq : 0 <= q <= m') by nia.
  pose proof (binary_round_aux_finite (xorb s false) q e0
                (new_location (Zpos my) r) 160 140
                ltac:(lia)
                ltac:(transitivity (Zdigits2 m'); [apply Zdigits2_le; lia|lia])
                He0 ltac:(lia) ltac:(lia) ltac:(lia)) as H.
  destruct (binary_round_aux prec emax (xorb s false) q e0
              (new_location (Zpos my) r));
    try contradiction; reflexivity.
Qed.

(** A converted amount in decimal units is a finite number. *)
Lemma decimal_finite z :
  fits53 z = true ->
  sf_finite (Prim2SF (BN.number_of z / Math_pow_10_6)) = true.
Proof.
  intros Hz. apply Z.ltb_lt in Hz. rewrite FloatAxioms.div_spec.
  apply SFdiv_small_pow_10_6, number_of_small, Hz.
Qed.

(** Adding the product of a finite number and 0 to 0 gives 0. *)
Lemma add_mul_zero v :
  sf_finite (Prim2SF v) = true -> (0 + v * 0)%float = 0%float.
Proof.
  intros Hv. apply Prim2SF_inj.
  rewrite FloatAxioms.add_spec, FloatAxioms.mul_spec.
  change (Prim2SF 0) with (S754_zero false).
  destruct (Prim2SF v) as [s|s| |s m e]; try discriminate;
    destruct s; reflexivity.
Qed.

End FloatFacts.

(** ** The synchronous part: what it returns and when it throws *)

Lemma toNumber_eq z :
  BN.toNumber z = if fits53 z then Ok (BN.number_of z) else Throw BN.tooLarge.
Proof. reflexivity. Qed.

Section Callbacks.

Context {A : Type}.
Variable c : A -> Result number.
Variable safe : A -> bool.
Variable v : A -> number.
Hypothesis c_eq : forall a, c a = if safe a then Ok (v a) else Throw BN.tooLarge.

(** A [reduce] whose callback converts one amount of each element. *)
Lemma reduce_eq (F : number -> number -> number) l : forall init,
  reduce (fun sum a => try! n := c a in Ok (F sum n)) init l
  = if forallb safe l
    then Ok (fold_left (fun s a => F s (v a)) l init)
    else Throw BN.tooLarge.
Proof.
  induction l as [|a l IH]; intros init; cbn [reduce forallb fold_left].
  - reflexivity.
  - rewrite c_eq. destruct (safe a); cbn [JS.bind andb]; [apply IH|reflexivity].
Qed.

End Callbacks.

Lemma map_eq {A B} (f : A -> Result B) (safe : A -> bool) (v : A -> B) :
  (forall a, f a = if safe a then Ok (v a) else Throw BN.tooLarge) ->
  forall l, JS.map f l
            = if forallb safe l then Ok (List.map v l) else Throw BN.tooLarge.
Proof.
  intros Hf l. induction l as [|a l IH]; cbn [JS.map forallb List.map].
  - reflexivity.
  - rewrite Hf, IH. destruct (safe a), (forallb safe l); reflexivity.
Qed.

Lemma sumOf_map {A} (g : A -> number) l : forall init,
  fold_left (fun s a => (s + g a)%float) l init
  = fold_left PrimFloat.add (List.map g l) init.
Proof.
  induction l as [|a l IH]; intros init; cbn [fold_left List.map];
    [reflexivity|apply IH].
Qed.

Lemma volume_eq acc :
  BN.toNumber (BN.sub (inDeposited (account acc)) (inWithdrawn (account acc)))
  = if volumeSafe acc
    then Ok (BN.number_of (inDeposited (account acc) - inWithdrawn (account acc)))
    else Throw BN.tooLarge.
Proof. reflexivity. Qed.

Lemma perCycle_eq acc :
  BN.toNumber (inAmountPerCycle (account acc))
  = if perCycleSafe acc
    then Ok (BN.number_of (inAmountPerCycle (account acc)))
    else Throw BN.tooLarge.
Proof. reflexivity. Qed.

Lemma calculateSummary_eq abt prices :
  JupiterDCAAPI.calculateSummaryFromRawAccounts abt prices
  = if summarySafe abt
    then Ok [ ("LOGOS", summaryFor (buys (LOGOS abt)) (sells (LOGOS abt)) (LOGOS prices));
              ("CHAOS", summaryFor (buys (CHAOS abt)) (sells (CHAOS abt)) (CHAOS prices)) ]
    else Throw BN.tooLarge.
Proof.
  unfold JupiterDCAAPI.calculateSummaryFromRawAccounts, summarySafe.
  rewrite (reduce_eq _ volumeSafe _ volume_eq
             (fun sum n => (sum + n / Math_pow_10_6 * LOGOS prices)%float)).
  rewrite !(reduce_eq _ volumeSafe _ volume_eq
              (fun sum n => (sum + n / Math_pow_10_6)%float)).
  rewrite !(reduce_eq _ perCycleSafe _ perCycle_eq
              (fun sum n => (sum + n / Math_pow_10_6)%float)).
  rewrite (reduce_eq _ volumeSafe _ volume_eq
             (fun sum n => (sum + n / Math_pow_10_6 * CHAOS prices)%float)).
  destruct (forallb volumeSafe (sells (LOGOS abt))); [|reflexivity].
  destruct (forallb volumeSafe (buys (LOGOS abt))); [|reflexivity].
  destruct (forallb perCycleSafe (buys (LOGOS abt))); [|reflexivity].
  destruct (forallb volumeSafe (buys (CHAOS abt))); [|reflexivity].
  destruct (forallb volumeSafe (sells (CHAOS abt))); [|reflexivity].
  destruct (forallb perCycleSafe (buys (CHAOS abt))); [|reflexivity].
  cbn [JS.bind andb]. unfold summaryFor, sumOf.
  rewrite <- !(sumOf_map nativeVolume), <- !(sumOf_map perCycleAmount).
  rewrite <- !(sumOf_map (fun acc => (nativeVolume acc * _)%float)).
  reflexivity.
Qed.

Lemma convertDCAAccount_eq acc p token type :
  JupiterDCAAPI.convertDCAAccount acc p token type
  = if convertSafe acc then Ok (positionFor acc p token type)
    else Throw BN.tooLarge.
Proof.
  unfold JupiterDCAAPI.convertDCAAccount, convertSafe, perCycleSafe, volumeSafe,
    positionFor, perCycleAmount, nativeVolume, BN.toNumber, BN.sub, fits53.
  destruct (Z.abs (inAmountPerCycle (account acc)) <? 2 ^ 53);
    cbn [JS.bind andb]; [|reflexivity].
  destruct (Z.abs (inDeposited (account acc) - inWithdrawn (account acc)) <? 2 ^ 53);
    cbn [JS.bind andb]; [|reflexivity].
  destruct (Z.abs (cycleFrequency (account acc)) <? 2 ^ 53);
    cbn [JS.bind andb]; [|reflexivity].
  destruct (Z.abs (nextCycleAt (account acc)) <? 2 ^ 53);
    cbn [JS.bind andb]; [|reflexivity].
  destruct (minOutAmount (account acc)) as [m|];
    [destruct (Z.abs m <? 2 ^ 53)|]; destruct type; reflexivity.
Qed.

Lemma convertAll_eq abt :
  JupiterDCAAPI.convertAll abt
  = if convertAllSafe abt
    then Ok (List.map (fun acc => positionFor acc 0%float "LOGOS" BUY) (buys (LOGOS abt))
             ++ List.map (fun acc => positionFor acc 0%float "LOGOS" SELL) (sells (LOGOS abt))
             ++ List.map (fun acc => positionFor acc 0%float "CHAOS" BUY) (buys (CHAOS abt))
             ++ List.map (fun acc => positionFor acc 0%float "CHAOS" SELL) (sells (CHAOS abt)))
    else Throw BN.tooLarge.
Proof.
  unfold JupiterDCAAPI.convertAll, convertAllSafe.
  rewrite !(map_eq _ convertSafe _ (fun acc => convertDCAAccount_eq acc _ _ _)).
  destruct (forallb convertSafe (buys (LOGOS abt))); [|reflexivity].
  destruct (forallb convertSafe (sells (LOGOS abt))); [|reflexivity].
  destruct (forallb convertSafe (buys (CHAOS abt))); [|reflexivity].
  destruct (forallb convertSafe (sells (CHAOS abt))); reflexivity.
Qed.

(** ** The retry loop *)

Section RetryLoop.

Context {T : Type}.
Variable operation : Async T.

(** One iteration of the loop. *)
Lemma retryFrom_step remaining i lastError w :
  JupiterDCAAPI.retryFrom operation (S remaining) i lastError w
  = match operation w with
    | (Ok a, w1, t1) => (Ok a, w1, EvAttempt i :: t1)
    | (Throw error, w1, t1) =>
        let '(r, w2, t2) :=
          JupiterDCAAPI.retryFrom operation remaining (S i) error
            (advance (1000 * (Z.of_nat i + 1)) w1) in
        (r, w2,
         (EvAttempt i :: t1)
         ++ EvAttemptFailed (i + 1) error
            :: EvWait (1000 * (Z.of_nat i + 1)) :: t2)
    end.
Proof.
  cbn [JupiterDCAAPI.retryFrom].
  unfold Async.tryCatch, Async.bind, Async.emit, Async.wait.
  destruct (operation w) as [[[a|error] w1] t1]; [reflexivity|].
  destruct (JupiterDCAAPI.retryFrom operation remaining (S i) error
              (advance (1000 * (Z.of_nat i + 1)) w1)) as [[r w2] t2].
  reflexivity.
Qed.

(** The operation produces no event of its own. *)
Hypothesis silent : forall w, snd (operation w) = [].

Lemma retryFrom_trace remaining : forall i lastError w,
  let '(r, w1, tr) := JupiterDCAAPI.retryFrom operation remaining i lastError w in
  (attempts tr <= remaining)%nat
  /\ countIf isFetchDataTimer tr = O
  /\ (forall error, r = Throw error -> attempts tr = remaining)
  /\ (forall pending j, (i <= j < i + attempts tr)%nat ->
        waitBefore j pending tr
        = Some (if Nat.eqb j i then pending else 1000 * Z.of_nat j)).
Proof.
  induction remaining as [|remaining IH]; intros i lastError w.
  - cbn. repeat split; lia.
  - rewrite retryFrom_step. pose proof (silent w) as Hs.
    destruct (operation w) as [[[a|error] w1] t1]; cbn [snd] in Hs; subst t1.
    + cbn. repeat split; try lia; [discriminate|].
      intros pending j Hj. replace j with i by lia.
      rewrite Nat.eqb_refl. reflexivity.
    + specialize (IH (S i) error (advance (1000 * (Z.of_nat i + 1)) w1)).
      destruct (JupiterDCAAPI.retryFrom operation remaining (S i) error
                  (advance (1000 * (Z.of_nat i + 1)) w1)) as [[r w2] t2].
      destruct IH as (Hle & Htimer & Hfail & Hwait).
      cbn [app attempts countIf isAttempt isFetchDataTimer] in *.
      fold (attempts t2). repeat split.
      * lia.
      * exact Htimer.
      * intros error' Hr. rewrite (Hfail error' Hr). reflexivity.
      * intros pending j Hj. cbn [waitBefore].
        destruct (Nat.eqb j i) eqn:Eji.
        -- reflexivity.
        -- apply Nat.eqb_neq in Eji.
           rewrite (Hwait (0 + 1000 * (Z.of_nat i + 1)) j ltac:(lia)).
           destruct (Nat.eqb j (S i)) eqn:Ejs; [|reflexivity].
           apply Nat.eqb_eq in Ejs. subst j. f_equal. lia.
Qed.

End RetryLoop.

Lemma silently_silent {T} (op : World -> Result T * World) w :
  snd (silently op w) = [].
Proof. unfold silently. destruct (op w). reflexivity. Qed.

(** ** The fetch of the accounts *)

Lemma fetchAllAccounts_eq w :
  JupiterDCAAPI.fetchAllAccounts w
  = match getAllFeed w (getAllCalls w) with
    | GetAllRejected e => (Throw e, countCall w, [])
    | GetAllResolved None | GetAllResolved (Some []) =>
        (Throw (Error "No accounts returned"), countCall w, [])
    | GetAllResolved (Some (a :: l)) => (Ok (a :: l), countCall w, [])
    end.
Proof.
  unfold JupiterDCAAPI.fetchAllAccounts, Async.bind, JupiterDCAAPI.dca_getAll.
  destruct (getAllFeed w (getAllCalls w)) as [e|[[|a l]|]]; reflexivity.
Qed.

Lemma fetchAllAccounts_silent w : snd (JupiterDCAAPI.fetchAllAccounts w) = [].
Proof.
  rewrite fetchAllAccounts_eq.
  destruct (getAllFeed w (getAllCalls w)) as [e|[[|a l]|]]; reflexivity.
Qed.

Lemma retry_fetch_frame remaining : forall i lastError w,
  sameOutside w
    (snd (fst (JupiterDCAAPI.retryFrom JupiterDCAAPI.fetchAllAccounts
                 remaining i lastError w))).
Proof.
  induction remaining as [|remaining IH]; intros i lastError w.
  - cbn. repeat split.
  - rewrite retryFrom_step, fetchAllAccounts_eq.
    set (w2 := advance (1000 * (Z.of_nat i + 1)) (countCall w)).
    assert (Hnext : forall error,
              sameOutside w
                (snd (fst (JupiterDCAAPI.retryFrom JupiterDCAAPI.fetchAllAccounts
                             remaining (S i) error w2)))).
    { intros error. destruct (IH (S i) error w2) as (H1 & H2 & H3).
      repeat split; [rewrite H1|rewrite H2|rewrite H3]; reflexivity. }
    destruct (getAllFeed w (getAllCalls w)) as [e|[[|a l]|]];
      try (repeat split; fail);
      [specialize (Hnext e) | specialize (Hnext (Error "No accounts returned")) ..];
      unfold w2 in Hnext;
      destruct (JupiterDCAAPI.retryFrom JupiterDCAAPI.fetchAllAccounts remaining
                  (S i) _ (advance (1000 * (Z.of_nat i + 1)) (countCall w)))
        as [[r w3] t3];
      exact Hnext.
Qed.

Lemma getCurrentPrice_eq m w :
  JupiterDCAAPI.getCurrentPrice m w
  = (Ok {| price := match priceFeed w m with
                    | PriceBody field => JupiterDCAAPI.priceOrZero field
                    | PriceRejected _ => 0%float
                    end;
           mint := m |}, w, []).
Proof.
  unfold JupiterDCAAPI.getCurrentPrice. destruct (priceFeed w m); reflexivity.
Qed.

Lemma quotedPrice_eq w T :
  quotedPrice w T
  = match priceFeed w (mintOf T) with
    | PriceBody field => JupiterDCAAPI.priceOrZero field
    | PriceRejected _ => 0%float
    end.
Proof. unfold quotedPrice. rewrite getCurrentPrice_eq. reflexivity. Qed.

(** ** One cycle of [getDCAAccounts] *)

Lemma getDCAAccounts_eq w :
  JupiterDCAAPI.getDCAAccounts w
  = if negb (dcaReady w) then (Throw (Error "DCA SDK not initialized"), w, [])
    else
      match JupiterDCAAPI.withRetry JupiterDCAAPI.fetchAllAccounts
              JupiterDCAAPI.defaultMaxRetries w with
      | (Throw e, w1, tr) => (Throw e, w1, tr)
      | (Ok raw, w1, tr) =>
          if summarySafe (JupiterDCAAPI.categorize raw)
             && convertAllSafe (JupiterDCAAPI.categorize raw)
          then (Ok (snapshotFor raw (quotedPrice w Logos) (quotedPrice w Chaos)
                      (clock w1)), w1, tr)
          else (Throw BN.tooLarge, w1, tr)
      end.
Proof.
  unfold JupiterDCAAPI.getDCAAccounts.
  destruct (negb (dcaReady w)); [reflexivity|].
  pose proof (retry_fetch_frame JupiterDCAAPI.defaultMaxRetries 0 Undefined w)
    as Hframe.
  unfold JupiterDCAAPI.withRetry, Async.bind at 1.
  destruct (JupiterDCAAPI.retryFrom JupiterDCAAPI.fetchAllAccounts
              JupiterDCAAPI.defaultMaxRetries 0 Undefined w)
    as [[[raw|e] w1] tr]; [|reflexivity].
  cbn [fst snd] in Hframe. destruct Hframe as (_ & _ & Hprice).
  rewrite !quotedPrice_eq, <- Hprice.
  unfold Async.bind, Async.lift, Async.Date_now, Async.ret.
  rewrite !getCurrentPrice_eq. cbn [price].
  rewrite calculateSummary_eq, convertAll_eq.
  destruct (summarySafe (JupiterDCAAPI.categorize raw));
    [|rewrite !app_nil_r; reflexivity].
  destruct (convertAllSafe (JupiterDCAAPI.categorize raw));
    [|rewrite !app_nil_r; reflexivity].
  cbn. rewrite !app_nil_r. reflexivity.
Qed.

(** ** The summary *)

Lemma length_filter {A} (p : A -> bool) l :
  List.length (filter p l) = countIf p l.
Proof.
  induction l as [|a l IH]; cbn [filter countIf]; [reflexivity|].
  destruct (p a); cbn [List.length]; rewrite IH; reflexivity.
Qed.

Lemma calculateSummary_Ok abt prices d :
  JupiterDCAAPI.calculateSummaryFromRawAccounts abt prices = Ok d ->
  summarySafe abt = true
  /\ d = [ ("LOGOS", summaryFor (buys (LOGOS abt)) (sells (LOGOS abt)) (LOGOS prices));
           ("CHAOS", summaryFor (buys (CHAOS abt)) (sells (CHAOS abt)) (CHAOS prices)) ].
Proof.
  rewrite calculateSummary_eq. destruct (summarySafe abt); [|discriminate].
  intros H. injection H as <-. split; reflexivity.
Qed.

(** The entry of a tracked token in the summary of the categorized accounts. *)
Lemma summary_entry raw prices d T :
  JupiterDCAAPI.calculateSummaryFromRawAccounts (JupiterDCAAPI.categorize raw) prices
  = Ok d ->
  get (symbol T) d
  = Some (summaryFor (buysOf T raw) (sellsOf T raw) (priceIn prices T)).
Proof.
  intros H. apply calculateSummary_Ok in H as [_ ->]. destruct T; reflexivity.
Qed.

(** C1. For every list of raw accounts and every tracked token T, the entry
    for T of the summary computed from the categorized accounts has
    [buyOrders] equal to the number of accounts whose output mint is the mint
    of T, [sellOrders] equal to the number of accounts whose input mint is the
    mint of T, and [buyVolume] (resp. [sellVolume]) equal to the sum, over the
    buy (resp. sell) partition, of [(inDeposited - inWithdrawn) / 10^6]. *)
Theorem summary_counts_and_volumes raw prices d T :
  JupiterDCAAPI.calculateSummaryFromRawAccounts (JupiterDCAAPI.categorize raw) prices
  = Ok d ->
  exists s,
    get (symbol T) d = Some s
    /\ TokenSummary.buyOrders s = countIf (isBuyOf T) raw
    /\ TokenSummary.sellOrders s = countIf (isSellOf T) raw
    /\ TokenSummary.buyVolume s = sumOf (List.map nativeVolume (buysOf T raw))
    /\ TokenSummary.sellVolume s = sumOf (List.map nativeVolume (sellsOf T raw)).
Proof.
  intros H. eexists. split; [exact (summary_entry raw prices d T H)|].
  cbn [summaryFor TokenSummary.buyOrders TokenSummary.sellOrders
       TokenSummary.buyVolume TokenSummary.sellVolume].
  unfold buysOf, sellsOf. rewrite !length_filter. repeat split.
Qed.

Lemma summary_counts_and_volumes_witness :
  exists d,
    JupiterDCAAPI.calculateSummaryFromRawAccounts
      (JupiterDCAAPI.categorize [buyLogos; sellLogos; sellChaos; untracked])
      {| LOGOS := 3%float; CHAOS := 2%float |} = Ok d
    /\ exists s,
         get (symbol Logos) d = Some s
         /\ TokenSummary.buyOrders s
            = countIf (isBuyOf Logos) [buyLogos; sellLogos; sellChaos; untracked]
         /\ TokenSummary.sellOrders s
            = countIf (isSellOf Logos) [buyLogos; sellLogos; sellChaos; untracked]
         /\ TokenSummary.buyVolume s
            = sumOf (List.map nativeVolume
                       (buysOf Logos [buyLogos; sellLogos; sellChaos; untracked]))
         /\ TokenSummary.sellVolume s
            = sumOf (List.map nativeVolume
                       (sellsOf Logos [buyLogos; sellLogos; sellChaos; untracked])).
Proof.
  eexists. split; [vm_compute; reflexivity|].
  apply (summary_counts_and_volumes
           [buyLogos; sellLogos; sellChaos; untracked]
           {| LOGOS := 3%float; CHAOS := 2%float |} _ Logos).
  vm_compute. reflexivity.
Defined.

(** C2. For every tracked token, [buyVolumeUSDC] is the rounded sum of the
    buy partition's [inAmountPerCycle / 10^6] and is the same whatever the
    prices are; [sellVolumeUSDC] is the sum over the sell partition of the
    native volume of each account times the price of the token, rounded once,
    after the sum. *)
Theorem quote_volumes raw prices d T :
  JupiterDCAAPI.calculateSummaryFromRawAccounts (JupiterDCAAPI.categorize raw) prices
  = Ok d ->
  exists s,
    get (symbol T) d = Some s
    /\ TokenSummary.buyVolumeUSDC s
       = Math_round (sumOf (List.map perCycleAmount (buysOf T raw)))
    /\ TokenSummary.sellVolumeUSDC s
       = Math_round
           (sumOf (List.map (fun acc => (nativeVolume acc * priceIn prices T)%float)
                            (sellsOf T raw)))
    /\ forall prices',
         exists d' s',
           JupiterDCAAPI.calculateSummaryFromRawAccounts
             (JupiterDCAAPI.categorize raw) prices' = Ok d'
           /\ get (symbol T) d' = Some s'
           /\ TokenSummary.buyVolumeUSDC s' = TokenSummary.buyVolumeUSDC s.
Proof.
  intros H. eexists. split; [exact (summary_entry raw prices d T H)|].
  repeat split. intros prices'.
  apply calculateSummary_Ok in H as [Hsafe _].
  assert (H' : JupiterDCAAPI.calculateSummaryFromRawAccounts
                 (JupiterDCAAPI.categorize raw) prices'
               = Ok [ ("LOGOS", summaryFor (buysOf Logos raw) (sellsOf Logos raw)
                                  (LOGOS prices'));
                      ("CHAOS", summaryFor (buysOf Chaos raw) (sellsOf Chaos raw)
                                  (CHAOS prices')) ])
    by (rewrite calculateSummary_eq, Hsafe; reflexivity).
  eexists. eexists. split; [exact H'|].
  split; [exact (summary_entry raw prices' _ T H')|reflexivity].
Qed.

Lemma quote_volumes_witness :
  exists d,
    JupiterDCAAPI.calculateSummaryFromRawAccounts
      (JupiterDCAAPI.categorize [buyLogos; sellLogos; sellChaos; untracked])
      {| LOGOS := 3%float; CHAOS := 2%float |} = Ok d
    /\ exists s,
         get (symbol Logos) d = Some s
         /\ TokenSummary.buyVolumeUSDC s = 1%float
         /\ TokenSummary.sellVolumeUSDC s = 6%float.
Proof.
  eexists. split; [vm_compute; reflexivity|].
  destruct (quote_volumes [buyLogos; sellLogos; sellChaos; untracked]
              {| LOGOS := 3%float; CHAOS := 2%float |} _ Logos
              ltac:(vm_compute; reflexivity))
    as (s & Hget & Hbuy & Hsell & _).
  exists s. split; [exact Hget|]. split.
  - rewrite Hbuy. vm_compute. reflexivity.
  - rewrite Hsell. vm_compute. reflexivity.
Defined.

(** Two sells of half a token at price 1 give a quote volume of 1: each half
    would round to 1 on its own. *)
Example rounding_after_the_sum :
  let half k := sampleAccount k CHAOS_MINT USDC_MINT 500000 0 500000 in
  exists d s,
    JupiterDCAAPI.calculateSummaryFromRawAccounts
      (JupiterDCAAPI.categorize [half "a"; half "b"])
      {| LOGOS := 1%float; CHAOS := 1%float |} = Ok d
    /\ get "CHAOS" d = Some s
    /\ TokenSummary.sellVolumeUSDC s = 1%float
    /\ (Math_round (nativeVolume (half "a") * 1)
        + Math_round (nativeVolume (half "b") * 1))%float = 2%float.
Proof.
  eexists. eexists. repeat split; vm_compute; reflexivity.
Qed.

(** ** The number of orders *)

Lemma mints_differ : String.eqb LOGOS_MINT CHAOS_MINT = false.
Proof. reflexivity. Qed.

Lemma eqb_one_mint x :
  String.eqb x LOGOS_MINT = true -> String.eqb x CHAOS_MINT = false.
Proof.
  intros H. apply String.eqb_eq in H. subst x. exact mints_differ.
Qed.

(** An account is in one or two of the four partitions when it matches a
    tracked mint, in two when both of its mints are tracked. *)
Lemma partitions_of_account acc :
  (Nat.b2n (isBuyOf Logos acc) + Nat.b2n (isSellOf Logos acc)
   + (Nat.b2n (isBuyOf Chaos acc) + Nat.b2n (isSellOf Chaos acc)))%nat
  = (Nat.b2n (matchesTracked acc) + Nat.b2n (matchesTwice acc))%nat.
Proof.
  unfold matchesTracked, matchesTwice, isBuyOf, isSellOf, mintOf.
  pose proof (eqb_one_mint (outputMint (account acc))) as Hout.
  pose proof (eqb_one_mint (inputMint (account acc))) as Hin.
  destruct (String.eqb (outputMint (account acc)) LOGOS_MINT);
    [rewrite (Hout eq_refl)|];
    (destruct (String.eqb (inputMint (account acc)) LOGOS_MINT);
     [rewrite (Hin eq_refl)|]);
    try destruct (String.eqb (outputMint (account acc)) CHAOS_MINT);
    try destruct (String.eqb (inputMint (account acc)) CHAOS_MINT);
    reflexivity.
Qed.

Lemma countIf_b2n {A} (p : A -> bool) a l :
  countIf p (a :: l) = (Nat.b2n (p a) + countIf p l)%nat.
Proof. cbn [countIf]. destruct (p a); reflexivity. Qed.

Lemma partitions_total raw :
  (countIf (isBuyOf Logos) raw + countIf (isSellOf Logos) raw
   + (countIf (isBuyOf Chaos) raw + countIf (isSellOf Chaos) raw))%nat
  = (countIf matchesTracked raw + countIf matchesTwice raw)%nat.
Proof.
  induction raw as [|acc raw IH]; [reflexivity|].
  rewrite !countIf_b2n. pose proof (partitions_of_account acc). lia.
Qed.

(** C5, as stated, fails: an order that sells LOGOS for CHAOS is one account
    matching a tracked mint, and is counted twice, as a sell of LOGOS and as a
    buy of CHAOS. *)
Lemma orders_count_twice :
  exists d,
    JupiterDCAAPI.calculateSummaryFromRawAccounts
      (JupiterDCAAPI.categorize [logosToChaos])
      {| LOGOS := 3%float; CHAOS := 2%float |} = Ok d
    /\ totalOrders d = 2%nat
    /\ countIf matchesTracked [logosToChaos] = 1%nat.
Proof.
  eexists. repeat split; vm_compute; reflexivity.
Qed.

(** C5, amended. The sum of [buyOrders + sellOrders] over the tracked tokens
    is the number of raw accounts that match a tracked mint plus the number
    of those whose two mints are both tracked; it is the number of raw
    accounts that match a tracked mint when no account has both of its mints
    tracked. *)
Theorem total_orders raw prices d :
  JupiterDCAAPI.calculateSummaryFromRawAccounts (JupiterDCAAPI.categorize raw) prices
  = Ok d ->
  totalOrders d = (countIf matchesTracked raw + countIf matchesTwice raw)%nat
  /\ (countIf matchesTwice raw = O -> totalOrders d = countIf matchesTracked raw).
Proof.
  intros H. apply calculateSummary_Ok in H as [_ ->].
  assert (Htotal : totalOrders
                     [ ("LOGOS", summaryFor (buys (LOGOS (JupiterDCAAPI.categorize raw)))
                                   (sells (LOGOS (JupiterDCAAPI.categorize raw)))
                                   (LOGOS prices));
                       ("CHAOS", summaryFor (buys (CHAOS (JupiterDCAAPI.categorize raw)))
                                   (sells (CHAOS (JupiterDCAAPI.categorize raw)))
                                   (CHAOS prices)) ]
                   = (countIf matchesTracked raw + countIf matchesTwice raw)%nat).
  { rewrite <- partitions_total.
    cbn [totalOrders fold_right snd summaryFor TokenSummary.buyOrders
         TokenSummary.sellOrders JupiterDCAAPI.categorize buys sells LOGOS CHAOS].
    rewrite !length_filter.
    change (fun acc => equals (outputMint (account acc)) LOGOS_MINT) with (isBuyOf Logos).
    change (fun acc => equals (inputMint (account acc)) LOGOS_MINT) with (isSellOf Logos).
    change (fun acc => equals (outputMint (account acc)) CHAOS_MINT) with (isBuyOf Chaos).
    change (fun acc => equals (inputMint (account acc)) CHAOS_MINT) with (isSellOf Chaos).
    lia. }
  split; [exact Htotal|]. intros Hnone. rewrite Htotal, Hnone. lia.
Qed.

Lemma total_orders_witness :
  exists d,
    JupiterDCAAPI.calculateSummaryFromRawAccounts
      (JupiterDCAAPI.categorize [buyLogos; sellLogos; sellChaos; untracked])
      {| LOGOS := 3%float; CHAOS := 2%float |} = Ok d
    /\ totalOrders d = 3%nat
    /\ countIf matchesTracked [buyLogos; sellLogos; sellChaos; untracked] = 3%nat.
Proof.
  eexists. split; [vm_compute; reflexivity|].
  destruct (total_orders [buyLogos; sellLogos; sellChaos; untracked]
              {| LOGOS := 3%float; CHAOS := 2%float |} _
              ltac:(vm_compute; reflexivity)) as [_ Hnone].
  split; [|reflexivity].
  rewrite (Hnone eq_refl). reflexivity.
Defined.

(** ** The published positions *)

Lemma getDCAAccounts_Ok w snap w' tr :
  JupiterDCAAPI.getDCAAccounts w = (Ok snap, w', tr) ->
  exists raw,
    JupiterDCAAPI.withRetry JupiterDCAAPI.fetchAllAccounts
      JupiterDCAAPI.defaultMaxRetries w = (Ok raw, w', tr)
    /\ fetchedAccounts w = Some raw
    /\ dcaReady w = true
    /\ summarySafe (JupiterDCAAPI.categorize raw) = true
    /\ convertAllSafe (JupiterDCAAPI.categorize raw) = true
    /\ snap = snapshotFor raw (quotedPrice w Logos) (quotedPrice w Chaos) (clock w').
Proof.
  rewrite getDCAAccounts_eq. unfold fetchedAccounts.
  destruct (dcaReady w); cbn [negb]; [|discriminate].
  destruct (JupiterDCAAPI.withRetry JupiterDCAAPI.fetchAllAccounts
              JupiterDCAAPI.defaultMaxRetries w) as [[[raw|e] w1] tr1];
    [|discriminate].
  destruct (summarySafe (JupiterDCAAPI.categorize raw)) eqn:Hs; [|discriminate].
  destruct (convertAllSafe (JupiterDCAAPI.categorize raw)) eqn:Hc; [|discriminate].
  cbn [andb]. intros H. injection H as <- <- <-.
  exists raw. repeat split; assumption.
Qed.

(** The summary of a published snapshot is the summary of the categorized
    accounts of the cycle at the prices quoted in the cycle. *)
Lemma cycle_summary w snap w' tr :
  JupiterDCAAPI.getDCAAccounts w = (Ok snap, w', tr) ->
  exists raw,
    fetchedAccounts w = Some raw
    /\ JupiterDCAAPI.calculateSummaryFromRawAccounts (JupiterDCAAPI.categorize raw)
         {| LOGOS := quotedPrice w Logos; CHAOS := quotedPrice w Chaos |}
       = Ok (Snapshot.summary snap).
Proof.
  intros H. apply getDCAAccounts_Ok in H as (raw & _ & Hraw & _ & Hs & _ & ->).
  exists raw. split; [exact Hraw|]. rewrite calculateSummary_eq, Hs. reflexivity.
Qed.

(** One BUY order that deposited 1,000,000 base units, 1,000,000 per cycle,
    at a price of 2: one buy order, a buy volume of 1 and a quote volume of 1. *)
Example scenario_one_buy :
  option_map Snapshot.summary
    (publishedBy (steadyWorld [buyLogos] (PriceBody (NumberField 2%float))
                               (PriceBody NoField)))
  = Some [ ("LOGOS",
            {| TokenSummary.buyOrders := 1; TokenSummary.sellOrders := 0;
               TokenSummary.buyVolume := 1%float; TokenSummary.sellVolume := 0%float;
               TokenSummary.buyVolumeUSDC := 1%float;
               TokenSummary.sellVolumeUSDC := 0%float |});
           ("CHAOS",
            {| TokenSummary.buyOrders := 0; TokenSummary.sellOrders := 0;
               TokenSummary.buyVolume := 0%float; TokenSummary.sellVolume := 0%float;
               TokenSummary.buyVolumeUSDC := 0%float;
               TokenSummary.sellVolumeUSDC := 0%float |}) ].
Proof. vm_compute. reflexivity. Qed.

(** One SELL order that deposited 2,000,000 base units, at a price of 3: a
    sell volume of 2 and a quote volume of 6. *)
Example scenario_one_sell :
  option_map (fun snap => get "LOGOS" (Snapshot.summary snap))
    (publishedBy (steadyWorld [sellLogos] (PriceBody (NumberField 3%float))
                               (PriceBody NoField)))
  = Some (Some {| TokenSummary.buyOrders := 0; TokenSummary.sellOrders := 1;
                  TokenSummary.buyVolume := 0%float;
                  TokenSummary.sellVolume := 2%float;
                  TokenSummary.buyVolumeUSDC := 0%float;
                  TokenSummary.sellVolumeUSDC := 6%float |}).
Proof. vm_compute. reflexivity. Qed.

(** Every published position comes from one account of one partition: it is
    converted with price 0 and then given the price of its token. *)
Lemma snapshot_position raw pl pc now p :
  In p (Snapshot.positions (snapshotFor raw pl pc now)) ->
  exists acc T dir,
    In acc raw
    /\ (match dir with BUY => isBuyOf T acc | SELL => isSellOf T acc end) = true
    /\ p = Position.withCurrentPrice (positionFor acc 0%float (symbol T) dir)
             (match T with Logos => pl | Chaos => pc end).
Proof.
  unfold snapshotFor. cbn [Snapshot.positions]. intros Hp.
  apply in_map_iff in Hp as (pos & <- & Hpos).
  cbn [JupiterDCAAPI.categorize buys sells LOGOS CHAOS] in Hpos.
  repeat (apply in_app_or in Hpos as [Hpos|Hpos]);
    apply in_map_iff in Hpos as (acc & <- & Hacc);
    apply filter_In in Hacc as [Hin Hmatch].
  - exists acc, Logos, BUY. repeat split; assumption.
  - exists acc, Logos, SELL. repeat split; assumption.
  - exists acc, Chaos, BUY. repeat split; assumption.
  - exists acc, Chaos, SELL. repeat split; assumption.
Qed.

(** C3 fails on the code. The published position of a SELL order of one
    LOGOS per cycle, at a LOGOS price of 3, has [amountPerCycle] 1 and
    [currentPrice] 3, and its [estimatedOutput] is 0, not 3: the position is
    converted with price 0 and only [currentPrice] is set afterwards. *)
Example published_estimatedOutput_ignores_price :
  option_map outputsOf
    (publishedBy (steadyWorld [sellLogos] (PriceBody (NumberField 3%float))
                               (PriceBody (NumberField 2%float))))
  = Some [ (SELL, 1%float, 3%float, Some 0%float) ]
  /\ (1 * 3)%float = 3%float.
Proof. split; vm_compute; reflexivity. Qed.

(** In every published position [estimatedOutput] is present exactly for
    SELL, and is then the per-cycle amount times 0, whatever the price. *)
Lemma published_estimatedOutput w snap w' tr p :
  JupiterDCAAPI.getDCAAccounts w = (Ok snap, w', tr) ->
  In p (Snapshot.positions snap) ->
  Position.estimatedOutput p
  = match Position.type p with
    | SELL => Some (Position.amountPerCycle p * 0)%float
    | BUY => None
    end.
Proof.
  intros H Hp. apply getDCAAccounts_Ok in H as (raw & _ & _ & _ & _ & _ & ->).
  apply snapshot_position in Hp as (acc & T & dir & _ & _ & ->).
  destruct dir; reflexivity.
Qed.

(** C4. Every published position of direction BUY has input token USDC and
    the symbol of its tracked token as output token; every position of
    direction SELL has the symbol of its tracked token as input token and
    USDC as output token; the symbol is LOGOS or CHAOS. *)
Theorem position_tokens_by_direction w snap w' tr p :
  JupiterDCAAPI.getDCAAccounts w = (Ok snap, w', tr) ->
  In p (Snapshot.positions snap) ->
  (exists T, Position.token p = symbol T)
  /\ (Position.inputToken p, Position.outputToken p)
     = match Position.type p with
       | BUY => ("USDC", Position.token p)
       | SELL => (Position.token p, "USDC")
       end.
Proof.
  intros H Hp. apply getDCAAccounts_Ok in H as (raw & _ & _ & _ & _ & _ & ->).
  apply snapshot_position in Hp as (acc & T & dir & _ & _ & ->).
  split; [exists T; reflexivity|]. destruct dir; reflexivity.
Qed.

Lemma position_tokens_by_direction_witness :
  let w := steadyWorld [buyLogos; sellLogos; sellChaos; untracked]
             (PriceBody (NumberField 3%float)) (PriceBody (NumberField 2%float)) in
  exists snap p,
    publishedBy w = Some snap
    /\ nth_error (Snapshot.positions snap) 0 = Some p
    /\ Position.type p = BUY
    /\ (Position.inputToken p, Position.outputToken p) = ("USDC", "LOGOS").
Proof.
  cbv zeta. eexists. eexists.
  split; [vm_compute; reflexivity|].
  split; [vm_compute; reflexivity|].
  split; [reflexivity|].
  exact (proj2 (position_tokens_by_direction
                  (steadyWorld [buyLogos; sellLogos; sellChaos; untracked]
                     (PriceBody (NumberField 3%float)) (PriceBody (NumberField 2%float)))
                  _ _ _ _ ltac:(vm_compute; reflexivity)
                  ltac:(left; reflexivity))).
Defined.

(** C9. Every published position has [remainingCycles] equal to
    [cycleFrequency]; both are the [cycleFrequency] of the raw account that
    the position was converted from. *)
Theorem remainingCycles_is_cycleFrequency w snap w' tr p :
  JupiterDCAAPI.getDCAAccounts w = (Ok snap, w', tr) ->
  In p (Snapshot.positions snap) ->
  Position.remainingCycles p = Position.cycleFrequency p
  /\ exists raw acc,
       fetchedAccounts w = Some raw /\ In acc raw
       /\ Position.id p = publicKey acc
       /\ Position.remainingCycles p = BN.number_of (cycleFrequency (account acc))
       /\ Position.cycleFrequency p = BN.number_of (cycleFrequency (account acc)).
Proof.
  intros H Hp. apply getDCAAccounts_Ok in H as (raw & _ & Hraw & _ & _ & _ & ->).
  apply snapshot_position in Hp as (acc & T & dir & Hacc & _ & ->).
  split; [reflexivity|]. exists raw, acc. repeat split; assumption.
Qed.

Lemma remainingCycles_is_cycleFrequency_witness :
  let w := steadyWorld [buyLogos; sellLogos; sellChaos; untracked]
             (PriceBody (NumberField 3%float)) (PriceBody (NumberField 2%float)) in
  exists snap p,
    publishedBy w = Some snap
    /\ nth_error (Snapshot.positions snap) 1 = Some p
    /\ Position.remainingCycles p = Position.cycleFrequency p
    /\ Position.cycleFrequency p = 60%float.
Proof.
  cbv zeta. eexists. eexists.
  split; [vm_compute; reflexivity|].
  split; [vm_compute; reflexivity|].
  split; [|reflexivity].
  exact (proj1 (remainingCycles_is_cycleFrequency
                  (steadyWorld [buyLogos; sellLogos; sellChaos; untracked]
                     (PriceBody (NumberField 3%float)) (PriceBody (NumberField 2%float)))
                  _ _ _ _ ltac:(vm_compute; reflexivity)
                  ltac:(right; left; reflexivity))).
Defined.

(** ** The retry policy *)

(** C6. [withRetry], with its default of 3, calls the operation at most 3
    times; the attempt of iteration [i] (the loop counts from 0: the first
    attempt is iteration 0, the [i]-th retry is iteration [i]) is preceded by
    a wait of [i] times 1000 ms; and when it throws, all 3 attempts have
    thrown and what it throws is what the last attempt threw. *)
Theorem withRetry_policy {T} (op : World -> Result T * World) (w : World) :
  let '(r, w', tr) :=
    JupiterDCAAPI.withRetry (silently op) JupiterDCAAPI.defaultMaxRetries w in
  (attempts tr <= 3)%nat
  /\ (forall i, (i < attempts tr)%nat ->
        waitBefore i 0 tr = Some (1000 * Z.of_nat i))
  /\ (forall e, r = Throw e ->
        attempts tr = 3%nat
        /\ exists e1 e2 w1 w2 w3,
             op w = (Throw e1, w1)
             /\ op (advance 1000 w1) = (Throw e2, w2)
             /\ op (advance 2000 w2) = (Throw e, w3)
             /\ w' = advance 3000 w3).
Proof.
  pose proof (retryFrom_trace (silently op) (silently_silent op)
                JupiterDCAAPI.defaultMaxRetries 0 Undefined w) as Htrace.
  unfold JupiterDCAAPI.withRetry.
  destruct (JupiterDCAAPI.retryFrom (silently op) JupiterDCAAPI.defaultMaxRetries
              0 Undefined w) as [[r w'] tr] eqn:Erun.
  destruct Htrace as (Hle & _ & Hfail & Hwait).
  split; [exact Hle|]. split.
  - intros i Hi. rewrite (Hwait 0 i) by lia.
    destruct (Nat.eqb i 0) eqn:Ei; [|reflexivity].
    apply Nat.eqb_eq in Ei. subst i. reflexivity.
  - intros e ->. split; [exact (Hfail e eq_refl)|].
    unfold JupiterDCAAPI.defaultMaxRetries in Erun.
    rewrite retryFrom_step in Erun. unfold silently at 1 in Erun.
    destruct (op w) as [[v|e1] w1]; [discriminate Erun|].
    rewrite retryFrom_step in Erun. unfold silently at 1 in Erun.
    destruct (op (advance (1000 * (Z.of_nat 0 + 1)) w1)) as [[v|e2] w2] eqn:E2;
      [discriminate Erun|].
    rewrite retryFrom_step in Erun. unfold silently at 1 in Erun.
    destruct (op (advance (1000 * (Z.of_nat 1 + 1)) w2)) as [[v|e3] w3] eqn:E3;
      [discriminate Erun|].
    cbn in Erun. injection Erun as <- <- _.
    exists e1, e2, w1, w2, w3. repeat split; assumption.
Qed.

(** An operation that fails twice and then succeeds: three attempts, with
    nothing waited before the first, 1000 ms before the second and 2000 ms
    before the third. *)
Example withRetry_third_attempt :
  let op (w : World) :=
    (if (getAllCalls w <? 2)%nat then Throw (Error "network") else Ok tt,
     countCall w) in
  JupiterDCAAPI.withRetry (silently op) JupiterDCAAPI.defaultMaxRetries
    (scriptedWorld [] (GetAllResolved None))
  = (Ok tt,
     countCall (advance 2000 (countCall (advance 1000
       (countCall (scriptedWorld [] (GetAllResolved None)))))),
     [ EvAttempt 0; EvAttemptFailed 1 (Error "network"); EvWait 1000;
       EvAttempt 1; EvAttemptFailed 2 (Error "network"); EvWait 2000;
       EvAttempt 2 ]).
Proof. reflexivity. Qed.

(** An operation that always fails: after the third failure [withRetry]
    waits 3000 ms more and throws the third error. *)
Example withRetry_exhausted :
  let op (w : World) :=
    (Throw (Error (if (getAllCalls w <? 2)%nat then "early" else "last")) : Result unit,
     countCall w) in
  fst (JupiterDCAAPI.withRetry (silently op) JupiterDCAAPI.defaultMaxRetries
         (scriptedWorld [] (GetAllResolved None)))
  = (Throw (Error "last"),
     advance 3000 (countCall (advance 2000 (countCall (advance 1000
       (countCall (scriptedWorld [] (GetAllResolved None)))))))).
Proof. reflexivity. Qed.

(** ** A price that cannot be fetched *)

(** The fetch of the accounts does not read the prices. *)
Lemma retry_fetch_price_irrelevant m resp remaining : forall i lastError w,
  JupiterDCAAPI.retryFrom JupiterDCAAPI.fetchAllAccounts remaining i lastError
    (withPriceResponse m resp w)
  = let '(r, w1, tr) :=
      JupiterDCAAPI.retryFrom JupiterDCAAPI.fetchAllAccounts remaining i lastError w in
    (r, withPriceResponse m resp w1, tr).
Proof.
  induction remaining as [|remaining IH]; intros i lastError w; [reflexivity|].
  rewrite !retryFrom_step, !fetchAllAccounts_eq.
  cbn [withPriceResponse getAllFeed getAllCalls].
  assert (Hnext : forall error,
            JupiterDCAAPI.retryFrom JupiterDCAAPI.fetchAllAccounts remaining (S i)
              error (advance (1000 * (Z.of_nat i + 1))
                       (countCall (withPriceResponse m resp w)))
            = let '(r, w1, tr) :=
                JupiterDCAAPI.retryFrom JupiterDCAAPI.fetchAllAccounts remaining
                  (S i) error (advance (1000 * (Z.of_nat i + 1)) (countCall w)) in
              (r, withPriceResponse m resp w1, tr))
    by (intros error;
        exact (IH (S i) error (advance (1000 * (Z.of_nat i + 1)) (countCall w)))).
  destruct (getAllFeed w (getAllCalls w)) as [e|[[|a l]|]];
    try reflexivity;
    rewrite Hnext;
    destruct (JupiterDCAAPI.retryFrom JupiterDCAAPI.fetchAllAccounts remaining
                (S i) _ (advance (1000 * (Z.of_nat i + 1)) (countCall w)))
      as [[r w3] t3];
    reflexivity.
Qed.

Lemma quotedPrice_noPrice w T resp :
  noPrice resp = true ->
  quotedPrice (withPriceResponse (mintOf T) resp w) T = 0%float.
Proof.
  intros Hno. rewrite quotedPrice_eq. cbn [withPriceResponse priceFeed].
  rewrite String.eqb_refl. destruct resp as [e|[|x|text value]];
    try reflexivity; discriminate Hno.
Qed.

(** At price 0 the quote volume of safe accounts sums to 0. *)
Lemma zero_price_sum l :
  forallb volumeSafe l = true ->
  sumOf (List.map (fun acc => (nativeVolume acc * 0)%float) l) = 0%float.
Proof.
  unfold sumOf. induction l as [|acc l IH]; intros Hsafe; [reflexivity|].
  cbn [forallb] in Hsafe. apply andb_prop in Hsafe as [Hacc Hl].
  cbn [List.map fold_left].
  rewrite FloatFacts.add_mul_zero; [exact (IH Hl)|].
  apply FloatFacts.decimal_finite, Hacc.
Qed.

Lemma summarySafe_sells abt T :
  summarySafe abt = true ->
  forallb volumeSafe (sells (match T with Logos => LOGOS abt | Chaos => CHAOS abt end))
  = true.
Proof.
  unfold summarySafe. intros H.
  repeat (apply andb_prop in H as [H ?]). destruct T; assumption.
Qed.

Lemma symbol_inj T T' : symbol T = symbol T' -> T = T'.
Proof. destruct T, T'; intros H; try reflexivity; discriminate H. Qed.

(** C7. When the price request for a tracked token is rejected or carries
    no price, a cycle that would otherwise succeed still succeeds, with the
    price of that token taken as 0: the [currentPrice] of every position of
    the token (so of every SELL position) is 0, the [sellVolumeUSDC] of the
    token is 0, and [buyOrders], [buyVolume] and [buyVolumeUSDC] are what
    they are with the price fetched. *)
Theorem price_failure_counts_as_zero w T resp snap w' tr :
  noPrice resp = true ->
  JupiterDCAAPI.getDCAAccounts w = (Ok snap, w', tr) ->
  exists snap0 s s0,
    JupiterDCAAPI.getDCAAccounts (withPriceResponse (mintOf T) resp w)
    = (Ok snap0, withPriceResponse (mintOf T) resp w', tr)
    /\ quotedPrice (withPriceResponse (mintOf T) resp w) T = 0%float
    /\ get (symbol T) (Snapshot.summary snap) = Some s
    /\ get (symbol T) (Snapshot.summary snap0) = Some s0
    /\ TokenSummary.sellVolumeUSDC s0 = 0%float
    /\ (forall p, In p (Snapshot.positions snap0) ->
          Position.token p = symbol T -> Position.currentPrice p = 0%float)
    /\ TokenSummary.buyOrders s0 = TokenSummary.buyOrders s
    /\ TokenSummary.buyVolume s0 = TokenSummary.buyVolume s
    /\ TokenSummary.buyVolumeUSDC s0 = TokenSummary.buyVolumeUSDC s.
Proof.
  intros Hno H.
  apply getDCAAccounts_Ok in H as (raw & Hretry & _ & Hready & Hs & Hc & ->).
  set (w0 := withPriceResponse (mintOf T) resp w).
  assert (H0 : JupiterDCAAPI.getDCAAccounts w0
               = (Ok (snapshotFor raw (quotedPrice w0 Logos) (quotedPrice w0 Chaos)
                        (clock w')),
                  withPriceResponse (mintOf T) resp w', tr)).
  { rewrite getDCAAccounts_eq.
    change (dcaReady w0) with (dcaReady w). rewrite Hready. cbn [negb].
    unfold JupiterDCAAPI.withRetry, w0 in *.
    rewrite retry_fetch_price_irrelevant, Hretry, Hs, Hc. reflexivity. }
  pose proof (quotedPrice_noPrice w T resp Hno) as Hzero. fold w0 in Hzero.
  exists (snapshotFor raw (quotedPrice w0 Logos) (quotedPrice w0 Chaos) (clock w')),
         (summaryFor (buysOf T raw) (sellsOf T raw) (quotedPrice w T)),
         (summaryFor (buysOf T raw) (sellsOf T raw) (quotedPrice w0 T)).
  split; [exact H0|]. split; [exact Hzero|].
  split; [destruct T; reflexivity|]. split; [destruct T; reflexivity|].
  split; [|split; [|destruct T; repeat split]].
  - pose proof (summarySafe_sells _ T Hs) as Hsells.
    assert (Hsells' : forallb volumeSafe (sellsOf T raw) = true)
      by (destruct T; exact Hsells).
    cbn [summaryFor TokenSummary.sellVolumeUSDC].
    rewrite Hzero, (zero_price_sum _ Hsells'). reflexivity.
  - intros p Hp Htoken.
    apply snapshot_position in Hp as (acc & T' & dir & _ & _ & ->).
    cbn [Position.withCurrentPrice Position.token positionFor] in Htoken.
    apply symbol_inj in Htoken. subst T'.
    cbn [Position.withCurrentPrice Position.currentPrice].
    destruct T; exact Hzero.
Qed.

Lemma price_failure_counts_as_zero_witness :
  let w := steadyWorld [buyLogos; sellLogos; sellChaos; untracked]
             (PriceBody (NumberField 3%float)) (PriceBody (NumberField 2%float)) in
  let w0 := withPriceResponse LOGOS_MINT (PriceRejected (Error "fetch failed")) w in
  exists snap0 s0,
    publishedBy w0 = Some snap0
    /\ get "LOGOS" (Snapshot.summary snap0) = Some s0
    /\ TokenSummary.sellVolumeUSDC s0 = 0%float
    /\ TokenSummary.buyVolumeUSDC s0 = 1%float.
Proof.
  cbv zeta.
  destruct (price_failure_counts_as_zero
              (steadyWorld [buyLogos; sellLogos; sellChaos; untracked]
                 (PriceBody (NumberField 3%float)) (PriceBody (NumberField 2%float)))
              Logos (PriceRejected (Error "fetch failed")) _ _ _
              eq_refl ltac:(vm_compute; reflexivity))
    as (snap0 & s & s0 & Hrun & _ & Hs & Hs0 & Hsell & _ & _ & _ & Hbuy).
  exists snap0, s0.
  split; [unfold publishedBy; cbn [mintOf] in Hrun; rewrite Hrun; reflexivity|].
  split; [exact Hs0|]. split; [exact Hsell|].
  rewrite Hbuy. cbn in Hs. injection Hs as <-. vm_compute. reflexivity.
Defined.

(** ** An empty result of the account source *)

Lemma retry_fetch_rejectingEmpties remaining : forall i lastError w,
  JupiterDCAAPI.retryFrom JupiterDCAAPI.fetchAllAccounts remaining i lastError
    (rejectingEmpties w)
  = let '(r, w1, tr) :=
      JupiterDCAAPI.retryFrom JupiterDCAAPI.fetchAllAccounts remaining i lastError w in
    (r, rejectingEmpties w1, tr).
Proof.
  induction remaining as [|remaining IH]; intros i lastError w; [reflexivity|].
  rewrite !retryFrom_step, !fetchAllAccounts_eq.
  cbn [rejectingEmpties withGetAllFeed getAllFeed getAllCalls].
  assert (Hnext : forall error,
            JupiterDCAAPI.retryFrom JupiterDCAAPI.fetchAllAccounts remaining (S i)
              error (advance (1000 * (Z.of_nat i + 1))
                       (countCall (rejectingEmpties w)))
            = let '(r, w1, tr) :=
                JupiterDCAAPI.retryFrom JupiterDCAAPI.fetchAllAccounts remaining
                  (S i) error (advance (1000 * (Z.of_nat i + 1)) (countCall w)) in
              (r, rejectingEmpties w1, tr))
    by (intros error;
        exact (IH (S i) error (advance (1000 * (Z.of_nat i + 1)) (countCall w)))).
  destruct (getAllFeed w (getAllCalls w)) as [e|[[|a l]|]];
    cbn [asRejection emptyResult];
    try reflexivity;
    rewrite Hnext;
    destruct (JupiterDCAAPI.retryFrom JupiterDCAAPI.fetchAllAccounts remaining
                (S i) _ (advance (1000 * (Z.of_nat i + 1)) (countCall w)))
      as [[r w3] t3];
    reflexivity.
Qed.

Lemma getDCAAccounts_trace w :
  let '(r, w1, tr) := JupiterDCAAPI.getDCAAccounts w in
  countIf isFetchDataTimer tr = O
  /\ (r = Throw (Error "No accounts returned") -> attempts tr = 3%nat).
Proof.
  rewrite getDCAAccounts_eq.
  destruct (negb (dcaReady w)); [split; [reflexivity|discriminate]|].
  pose proof (retryFrom_trace JupiterDCAAPI.fetchAllAccounts
                fetchAllAccounts_silent JupiterDCAAPI.defaultMaxRetries
                0 Undefined w) as Htrace.
  unfold JupiterDCAAPI.withRetry.
  destruct (JupiterDCAAPI.retryFrom JupiterDCAAPI.fetchAllAccounts
              JupiterDCAAPI.defaultMaxRetries 0 Undefined w) as [[[raw|e] w1] tr].
  - destruct Htrace as (_ & Htimer & _ & _).
    destruct (summarySafe (JupiterDCAAPI.categorize raw)
              && convertAllSafe (JupiterDCAAPI.categorize raw));
      (split; [exact Htimer|discriminate]).
  - destruct Htrace as (_ & Htimer & Hfail & _).
    split; [exact Htimer|]. intros _. exact (Hfail e eq_refl).
Qed.

(** C8. An empty or absent result of [dca.getAll()] is a failed attempt of
    the retried fetch: a cycle runs as it does when every such result is a
    rejection instead (same outcome, same attempts and waits); a cycle that
    fails with the error of the empty result has made all 3 attempts; and
    when the 3 results are empty the cycle fails with that error after
    waiting 1000, 2000 and 3000 ms. *)
Theorem empty_result_is_retried :
  (forall w,
     JupiterDCAAPI.getDCAAccounts (rejectingEmpties w)
     = let '(r, w1, tr) := JupiterDCAAPI.getDCAAccounts w in
       (r, rejectingEmpties w1, tr))
  /\ (forall w w' tr,
        JupiterDCAAPI.getDCAAccounts w
        = (Throw (Error "No accounts returned"), w', tr) ->
        attempts tr = 3%nat)
  /\ (forall w,
        dcaReady w = true ->
        (forall k, (k < 3)%nat ->
           emptyResult (getAllFeed w (getAllCalls w + k)) = true) ->
        JupiterDCAAPI.getDCAAccounts w
        = (Throw (Error "No accounts returned"),
           advance 3000 (countCall (advance 2000 (countCall (advance 1000
             (countCall w))))),
           [ EvAttempt 0; EvAttemptFailed 1 (Error "No accounts returned");
             EvWait 1000;
             EvAttempt 1; EvAttemptFailed 2 (Error "No accounts returned");
             EvWait 2000;
             EvAttempt 2; EvAttemptFailed 3 (Error "No accounts returned");
             EvWait 3000 ])).
Proof.
  split; [|split].
  - intros w. rewrite !getDCAAccounts_eq.
    change (dcaReady (rejectingEmpties w)) with (dcaReady w).
    destruct (negb (dcaReady w)); [reflexivity|].
    unfold JupiterDCAAPI.withRetry. rewrite retry_fetch_rejectingEmpties.
    destruct (JupiterDCAAPI.retryFrom JupiterDCAAPI.fetchAllAccounts
                JupiterDCAAPI.defaultMaxRetries 0 Undefined w)
      as [[[raw|e] w1] tr]; [|reflexivity].
    rewrite !quotedPrice_eq.
    cbn [rejectingEmpties withGetAllFeed priceFeed clock].
    destruct (summarySafe (JupiterDCAAPI.categorize raw)
              && convertAllSafe (JupiterDCAAPI.categorize raw)); reflexivity.
  - intros w w' tr H. pose proof (getDCAAccounts_trace w) as Htrace.
    rewrite H in Htrace. exact (proj2 Htrace eq_refl).
  - intros w Hready Hempty. rewrite getDCAAccounts_eq, Hready. cbn [negb].
    pose proof (Hempty 0%nat ltac:(lia)) as H0.
    pose proof (Hempty 1%nat ltac:(lia)) as H1.
    pose proof (Hempty 2%nat ltac:(lia)) as H2.
    rewrite Nat.add_0_r in H0.
    replace (getAllCalls w + 1)%nat with (S (getAllCalls w)) in H1 by lia.
    replace (getAllCalls w + 2)%nat with (S (S (getAllCalls w))) in H2 by lia.
    unfold JupiterDCAAPI.withRetry, JupiterDCAAPI.defaultMaxRetries.
    rewrite retryFrom_step, fetchAllAccounts_eq.
    destruct (getAllFeed w (getAllCalls w)) as [e|[[|a l]|]];
      try discriminate H0;
      rewrite retryFrom_step, fetchAllAccounts_eq;
      cbn [advance countCall getAllFeed getAllCalls];
      (destruct (getAllFeed w (S (getAllCalls w))) as [e|[[|a l]|]];
       try discriminate H1);
      rewrite retryFrom_step, fetchAllAccounts_eq;
      cbn [advance countCall getAllFeed getAllCalls];
      (destruct (getAllFeed w (S (S (getAllCalls w)))) as [e|[[|a l]|]];
       try discriminate H2);
      reflexivity.
Qed.

(** An empty result followed by accounts: the second attempt, made after
    1000 ms, delivers them and the cycle publishes their snapshot. *)
Example empty_then_accounts :
  let w := scriptedWorld [GetAllResolved (Some [])]
             (GetAllResolved (Some [buyLogos])) in
  fetchedAccounts w = Some [buyLogos]
  /\ snd (JupiterDCAAPI.getDCAAccounts w)
     = [ EvAttempt 0; EvAttemptFailed 1 (Error "No accounts returned");
         EvWait 1000; EvAttempt 1 ]
  /\ option_map outputsOf (publishedBy w)
     = Some [ (BUY, 1%float, 3%float, None) ].
Proof. repeat split; vm_compute; reflexivity. Qed.

(** ** A failed cycle of the dashboard *)

Lemma countIf_app {A} (p : A -> bool) l1 l2 :
  countIf p (l1 ++ l2) = (countIf p l1 + countIf p l2)%nat.
Proof.
  induction l1 as [|a l1 IH]; [reflexivity|].
  cbn [app countIf]. destruct (p a); rewrite IH; reflexivity.
Qed.

(** C10. When the cycle of [getDCAAccounts] fails, [fetchData] leaves
    [positions], [summaryData], [chartData] (and [lastUpdate],
    [autoRefresh]) as they were, sets [error] to its message and [loading] to
    true, and schedules one run of [fetchData], 2000 ms later. *)
Theorem failed_cycle_keeps_snapshot st w e w1 tr :
  JupiterDCAAPI.getDCAAccounts w = (Throw e, w1, tr) ->
  exists st',
    DCADashboard.fetchData st w
    = (Ok st', w1, tr ++ [EvSetTimeoutFetchData 2000])
    /\ DCADashboard.positions st' = DCADashboard.positions st
    /\ DCADashboard.summaryData st' = DCADashboard.summaryData st
    /\ DCADashboard.chartData st' = DCADashboard.chartData st
    /\ DCADashboard.lastUpdate st' = DCADashboard.lastUpdate st
    /\ DCADashboard.autoRefresh st' = DCADashboard.autoRefresh st
    /\ DCADashboard.error st' = Some "Failed to fetch data. Retrying..."
    /\ DCADashboard.loading st' = true
    /\ countIf isFetchDataTimer (tr ++ [EvSetTimeoutFetchData 2000]) = 1%nat.
Proof.
  intros H. pose proof (getDCAAccounts_trace w) as Htrace.
  rewrite H in Htrace. destruct Htrace as [Htimer _].
  eexists. split.
  - unfold DCADashboard.fetchData, Async.tryCatch, Async.bind at 1.
    rewrite H. cbn. reflexivity.
  - cbn. rewrite countIf_app, Htimer. repeat split.
Qed.

Lemma failed_cycle_keeps_snapshot_witness :
  let published :=
    {| DCADashboard.chartData := [ ("LOGOS", []) ];
       DCADashboard.summaryData := [ ("LOGOS", summaryFor [buyLogos] [] 3%float) ];
       DCADashboard.positions := [ positionFor buyLogos 3%float "LOGOS" BUY ];
       DCADashboard.loading := false;
       DCADashboard.error := None;
       DCADashboard.autoRefresh := true;
       DCADashboard.lastUpdate := 500 |} in
  let w := scriptedWorld [] (GetAllRejected (Error "network")) in
  exists st' w1 tr,
    DCADashboard.fetchData published w = (Ok st', w1, tr)
    /\ DCADashboard.positions st' = DCADashboard.positions published
    /\ DCADashboard.summaryData st' = DCADashboard.summaryData published
    /\ DCADashboard.chartData st' = DCADashboard.chartData published
    /\ DCADashboard.error st' = Some "Failed to fetch data. Retrying..."
    /\ DCADashboard.loading st' = true
    /\ countIf isFetchDataTimer tr = 1%nat.
Proof.
  cbv zeta.
  destruct (failed_cycle_keeps_snapshot
              {| DCADashboard.chartData := [ ("LOGOS", []) ];
                 DCADashboard.summaryData := [ ("LOGOS", summaryFor [buyLogos] [] 3%float) ];
                 DCADashboard.positions := [ positionFor buyLogos 3%float "LOGOS" BUY ];
                 DCADashboard.loading := false;
                 DCADashboard.error := None;
                 DCADashboard.autoRefresh := true;
                 DCADashboard.lastUpdate := 500 |}
              (scriptedWorld [] (GetAllRejected (Error "network"))) _ _ _
              ltac:(vm_compute; reflexivity))
    as (st' & Hrun & Hp & Hs & Hc & _ & _ & He & Hl & Hn).
  eexists. eexists. eexists.
  split; [exact Hrun|]. repeat split; assumption.
Defined.


(** * More of the code *)

(** ** [withRetry] with any number of retries *)

Section RetryBackoff.

Context {T : Type}.
Variable operation : Async T.
Hypothesis silent : forall w, snd (operation w) = [].

(** The waits of a run of the loop from iteration [i]: after the failure of
    iteration [j] the loop waits [1000 * (j + 1)] ms, also after the last
    one. *)
Lemma retryFrom_waits remaining : forall i lastError w,
  let '(r, w1, tr) := JupiterDCAAPI.retryFrom operation remaining i lastError w in
  match r with
  | Throw _ =>
      totalWait tr
      = 500 * Z.of_nat remaining * (2 * Z.of_nat i + Z.of_nat remaining + 1)
  | Ok _ =>
      (1 <= attempts tr)%nat
      /\ totalWait tr
         = 500 * (Z.of_nat (attempts tr) - 1)
           * (2 * Z.of_nat i + Z.of_nat (attempts tr))
  end.
Proof.
  induction remaining as [|remaining IH]; intros i lastError w.
  - cbn. lia.
  - rewrite retryFrom_step. pose proof (silent w) as Hs.
    destruct (operation w) as [[[a|error] w1] t1]; cbn [snd] in Hs; subst t1.
    + cbn. split; lia.
    + specialize (IH (S i) error (advance (1000 * (Z.of_nat i + 1)) w1)).
      destruct (JupiterDCAAPI.retryFrom operation remaining (S i) error
                  (advance (1000 * (Z.of_nat i + 1)) w1)) as [[r w2] t2].
      cbn [app totalWait fold_right attempts countIf isAttempt].
      fold (totalWait t2). fold (attempts t2).
      destruct r as [v|e].
      * destruct IH as [Hone Hwait]. split; [lia|]. rewrite Hwait. nia.
      * rewrite IH. nia.
Qed.

End RetryBackoff.

(** X1. For every number of retries: when [withRetry] throws it has called
    the operation [maxRetries] times and waited [1000 * (1 + 2 + ... +
    maxRetries)] ms in all, the wait after the last failure included; when it
    returns after [a] attempts ([1 <= a <= maxRetries]) it has waited [1000 *
    (1 + ... + (a - 1))] ms; with [maxRetries = 0] it throws [undefined]
    without calling the operation. *)
Theorem withRetry_backoff {T} (op : World -> Result T * World)
    (maxRetries : nat) (w : World) :
  let '(r, w', tr) := JupiterDCAAPI.withRetry (silently op) maxRetries w in
  match r with
  | Throw e =>
      attempts tr = maxRetries
      /\ totalWait tr = 500 * Z.of_nat maxRetries * (Z.of_nat maxRetries + 1)
      /\ (maxRetries = O -> e = Undefined /\ w' = w /\ tr = [])
  | Ok _ =>
      (1 <= attempts tr <= maxRetries)%nat
      /\ totalWait tr
         = 500 * (Z.of_nat (attempts tr) - 1) * Z.of_nat (attempts tr)
  end.
Proof.
  pose proof (retryFrom_trace (silently op) (silently_silent op)
                maxRetries 0 Undefined w) as Htrace.
  pose proof (retryFrom_waits (silently op) (silently_silent op)
                maxRetries 0 Undefined w) as Hwaits.
  unfold JupiterDCAAPI.withRetry.
  destruct maxRetries as [|n].
  - cbn. repeat split.
  - destruct (JupiterDCAAPI.retryFrom (silently op) (S n) 0 Undefined w)
      as [[[v|e] w'] tr].
    + destruct Htrace as (Hle & _). destruct Hwaits as [Hone Hwait].
      split; [lia|]. rewrite Hwait. lia.
    + destruct Htrace as (_ & _ & Hfail & _).
      split; [exact (Hfail e eq_refl)|]. split; [rewrite Hwaits; lia|].
      discriminate.
Qed.

Lemma retryFrom_first_success {T} (op : World -> Result T * World) k :
  forall remaining i lastError w wk v w',
    afterFailures op k i w = Some wk ->
    (k < remaining)%nat ->
    op wk = (Ok v, w') ->
    exists tr,
      JupiterDCAAPI.retryFrom (silently op) remaining i lastError w = (Ok v, w', tr)
      /\ attempts tr = S k.
Proof.
  induction k as [|k IH]; intros remaining i lastError w wk v w' Hk Hlt Hop.
  - cbn in Hk. injection Hk as <-.
    destruct remaining as [|remaining]; [lia|].
    rewrite retryFrom_step. unfold silently. rewrite Hop.
    eexists. split; reflexivity.
  - cbn [afterFailures] in Hk.
    destruct remaining as [|remaining]; [lia|].
    rewrite retryFrom_step. unfold silently at 1.
    destruct (op w) as [[x|e] w1]; [discriminate Hk|].
    destruct (IH remaining (S i) e _ wk v w' Hk ltac:(lia) Hop) as (tr & Hrun & Hatt).
    rewrite Hrun. eexists. split; [reflexivity|].
    cbn [app attempts countIf isAttempt]. fold (attempts tr). rewrite Hatt.
    reflexivity.
Qed.

(** X2. [withRetry] returns the result of the first attempt that does not
    throw and calls the operation no further: when the first [k] attempts
    throw ([k < maxRetries]) and the next one returns [v], [withRetry]
    returns [v] in the world that this attempt left, after [k + 1] attempts. *)
Theorem withRetry_first_success {T} (op : World -> Result T * World)
    (k maxRetries : nat) (w wk w' : World) (v : T) :
  afterFailures op k 0 w = Some wk ->
  (k < maxRetries)%nat ->
  op wk = (Ok v, w') ->
  exists tr,
    JupiterDCAAPI.withRetry (silently op) maxRetries w = (Ok v, w', tr)
    /\ attempts tr = S k
    /\ totalWait tr = 500 * Z.of_nat k * (Z.of_nat k + 1).
Proof.
  intros Hk Hlt Hop.
  destruct (retryFrom_first_success op k maxRetries 0 Undefined w wk v w' Hk Hlt Hop)
    as (tr & Hrun & Hatt).
  exists tr. unfold JupiterDCAAPI.withRetry.
  split; [exact Hrun|]. split; [exact Hatt|].
  pose proof (retryFrom_waits (silently op) (silently_silent op)
                maxRetries 0 Undefined w) as Hw.
  rewrite Hrun in Hw. destruct Hw as [_ Hw]. rewrite Hw, Hatt. lia.
Qed.

Lemma withRetry_first_success_witness :
  let op (w : World) :=
    (if (getAllCalls w <? 2)%nat then Throw (Error "network") else Ok tt,
     countCall w) in
  let w := scriptedWorld [] (GetAllResolved None) in
  exists tr w',
    JupiterDCAAPI.withRetry (silently op) 5 w = (Ok tt, w', tr)
    /\ attempts tr = 3%nat
    /\ totalWait tr = 3000.
Proof.
  cbv zeta.
  destruct (withRetry_first_success
              (fun w : World =>
                 (if (getAllCalls w <? 2)%nat then Throw (Error "network") else Ok tt,
                  countCall w))
              2 5 (scriptedWorld [] (GetAllResolved None)) _ _ tt
              eq_refl ltac:(lia) eq_refl) as (tr & Hrun & Hatt & Hwait).
  exists tr. eexists. split; [exact Hrun|]. split; [exact Hatt|exact Hwait].
Defined.

(** ** What a cycle costs and what it leaves alone *)



(** ** The SDK before it is ready *)

(** X4. While [this.dca] is not assigned, [getDCAAccounts] throws "DCA SDK
    not initialized" at once: [dca.getAll()] is not called and nothing is
    waited for (the retry loop is not entered). [fetchData] then shows the
    error screen and schedules its own retry, 2000 ms later. *)
Theorem uninitialized_sdk st w :
  dcaReady w = false ->
  JupiterDCAAPI.getDCAAccounts w = (Throw (Error "DCA SDK not initialized"), w, [])
  /\ exists st',
       DCADashboard.fetchData st w = (Ok st', w, [EvSetTimeoutFetchData 2000])
       /\ DCADashboardView.render st'
          = DCADashboardView.ErrorScreen "Failed to fetch data. Retrying...".
Proof.
  intros Hready.
  assert (H : JupiterDCAAPI.getDCAAccounts w
              = (Throw (Error "DCA SDK not initialized"), w, []))
    by (rewrite getDCAAccounts_eq, Hready; reflexivity).
  split; [exact H|]. eexists. split.
  - unfold DCADashboard.fetchData, Async.tryCatch, Async.bind at 1.
    rewrite H. cbn. reflexivity.
  - reflexivity.
Qed.

Lemma uninitialized_sdk_witness :
  let w := {| dcaReady := false;
              getAllFeed := fun _ => GetAllResolved (Some [buyLogos]);
              getAllCalls := 0;
              priceFeed := fun _ => PriceBody (NumberField 3%float);
              clock := 0 |} in
  fst (fst (JupiterDCAAPI.getDCAAccounts w))
  = Throw (Error "DCA SDK not initialized")
  /\ getAllCalls (snd (fst (JupiterDCAAPI.getDCAAccounts w))) = 0%nat.
Proof.
  cbv zeta.
  destruct (uninitialized_sdk (DCADashboard.initialState 0)
              {| dcaReady := false;
                 getAllFeed := fun _ => GetAllResolved (Some [buyLogos]);
                 getAllCalls := 0;
                 priceFeed := fun _ => PriceBody (NumberField 3%float);
                 clock := 0 |} eq_refl) as [Hrun _].
  rewrite Hrun. split; reflexivity.
Defined.


(** ** Amounts of more than 53 bits *)








(** ** The published positions and the partitions *)

(** The positions of a snapshot, partition by partition. *)
Lemma snapshot_positions raw pl pc now :
  Snapshot.positions (snapshotFor raw pl pc now)
  = List.map (publishedPosition Logos BUY pl) (buysOf Logos raw)
    ++ List.map (publishedPosition Logos SELL pl) (sellsOf Logos raw)
    ++ List.map (publishedPosition Chaos BUY pc) (buysOf Chaos raw)
    ++ List.map (publishedPosition Chaos SELL pc) (sellsOf Chaos raw).
Proof.
  unfold snapshotFor. cbn [Snapshot.positions].
  rewrite !map_app, !map_map. reflexivity.
Qed.

Lemma countIf_map {A B} (p : B -> bool) (f : A -> B) l :
  countIf p (List.map f l) = countIf (fun a => p (f a)) l.
Proof.
  induction l as [|a l IH]; cbn [List.map countIf]; [reflexivity|].
  rewrite IH. reflexivity.
Qed.

Lemma countIf_true {A} (l : list A) : countIf (fun _ => true) l = List.length l.
Proof. induction l as [|a l IH]; cbn; [reflexivity|rewrite IH; reflexivity]. Qed.

Lemma countIf_false {A} (l : list A) : countIf (fun _ => false) l = O.
Proof. induction l as [|a l IH]; cbn; [reflexivity|exact IH]. Qed.

(** X6. The order counts of the summary are the numbers of published
    positions: for every tracked token, [buyOrders] is the number of
    positions of that token with direction BUY and [sellOrders] the number
    with direction SELL; the number of positions is the total of the orders. *)
Theorem orders_count_positions w snap w' tr T :
  JupiterDCAAPI.getDCAAccounts w = (Ok snap, w', tr) ->
  exists s,
    get (symbol T) (Snapshot.summary snap) = Some s
    /\ TokenSummary.buyOrders s
       = countIf (isPositionOf T BUY) (Snapshot.positions snap)
    /\ TokenSummary.sellOrders s
       = countIf (isPositionOf T SELL) (Snapshot.positions snap)
    /\ List.length (Snapshot.positions snap) = totalOrders (Snapshot.summary snap).
Proof.
  intros H. apply getDCAAccounts_Ok in H as (raw & _ & _ & _ & _ & _ & ->).
  exists (summaryFor (buysOf T raw) (sellsOf T raw)
            (match T with
             | Logos => quotedPrice w Logos
             | Chaos => quotedPrice w Chaos
             end)).
  split; [destruct T; reflexivity|].
  rewrite snapshot_positions, !countIf_app, !countIf_map.
  cbn [summaryFor TokenSummary.buyOrders TokenSummary.sellOrders].
  repeat split.
  - destruct T; cbn; rewrite ?countIf_true, ?countIf_false; lia.
  - destruct T; cbn; rewrite ?countIf_true, ?countIf_false; lia.
  - rewrite !length_app, !length_map.
    cbn [snapshotFor Snapshot.summary totalOrders fold_right snd summaryFor
         TokenSummary.buyOrders TokenSummary.sellOrders].
    unfold buysOf, sellsOf. cbn [JupiterDCAAPI.categorize buys sells LOGOS CHAOS].
    change (fun acc => equals (outputMint (account acc)) LOGOS_MINT) with (isBuyOf Logos).
    change (fun acc => equals (inputMint (account acc)) LOGOS_MINT) with (isSellOf Logos).
    change (fun acc => equals (outputMint (account acc)) CHAOS_MINT) with (isBuyOf Chaos).
    change (fun acc => equals (inputMint (account acc)) CHAOS_MINT) with (isSellOf Chaos).
    lia.
Qed.

Lemma orders_count_positions_witness :
  let w := steadyWorld [buyLogos; sellLogos; sellChaos; logosToChaos; untracked]
             (PriceBody (NumberField 3%float)) (PriceBody (NumberField 2%float)) in
  exists snap s,
    publishedBy w = Some snap
    /\ get "CHAOS" (Snapshot.summary snap) = Some s
    /\ TokenSummary.buyOrders s = 1%nat
    /\ countIf (isPositionOf Chaos BUY) (Snapshot.positions snap) = 1%nat.
Proof.
  cbv zeta.
  destruct (orders_count_positions
              (steadyWorld [buyLogos; sellLogos; sellChaos; logosToChaos; untracked]
                 (PriceBody (NumberField 3%float)) (PriceBody (NumberField 2%float)))
              _ _ _ Chaos ltac:(vm_compute; reflexivity))
    as (s & Hget & Hbuy & _ & _).
  eexists. exists s. split; [vm_compute; reflexivity|]. split; [exact Hget|].
  split; [rewrite Hbuy|]; vm_compute; reflexivity.
Defined.

(** X7. Every published position comes from a fetched account of the
    partition of its token and direction: its [id] and [publicKey] are the
    key of the account, [totalAmount] is [(inDeposited - inWithdrawn) / 10^6],
    [inputAmount] and [amountPerCycle] are [inAmountPerCycle / 10^6],
    [priceToken] is USDC and [currentPrice] is the price quoted for its token
    in the cycle. *)
Theorem position_provenance w snap w' tr p :
  JupiterDCAAPI.getDCAAccounts w = (Ok snap, w', tr) ->
  In p (Snapshot.positions snap) ->
  exists raw acc T,
    fetchedAccounts w = Some raw /\ In acc raw
    /\ Position.token p = symbol T
    /\ (match Position.type p with
        | BUY => isBuyOf T acc
        | SELL => isSellOf T acc
        end) = true
    /\ Position.id p = publicKey acc
    /\ Position.publicKey p = publicKey acc
    /\ Position.totalAmount p = nativeVolume acc
    /\ Position.inputAmount p = perCycleAmount acc
    /\ Position.amountPerCycle p = perCycleAmount acc
    /\ Position.priceToken p = "USDC"
    /\ Position.currentPrice p = quotedPrice w T.
Proof.
  intros H Hp. apply getDCAAccounts_Ok in H as (raw & _ & Hraw & _ & _ & _ & ->).
  apply snapshot_position in Hp as (acc & T & dir & Hacc & Hdir & ->).
  exists raw, acc, T. split; [exact Hraw|]. split; [exact Hacc|].
  split; [reflexivity|]. split; [exact Hdir|].
  destruct T; repeat split.
Qed.

Lemma position_provenance_witness :
  let w := steadyWorld [buyLogos; sellLogos; sellChaos; untracked]
             (PriceBody (NumberField 3%float)) (PriceBody (NumberField 2%float)) in
  exists snap p,
    publishedBy w = Some snap
    /\ nth_error (Snapshot.positions snap) 2 = Some p
    /\ Position.id p = "sell-chaos"
    /\ Position.currentPrice p = 2%float.
Proof.
  cbv zeta. eexists. eexists.
  split; [vm_compute; reflexivity|].
  split; [vm_compute; reflexivity|].
  destruct (position_provenance
              (steadyWorld [buyLogos; sellLogos; sellChaos; untracked]
                 (PriceBody (NumberField 3%float)) (PriceBody (NumberField 2%float)))
              _ _ _ _ ltac:(vm_compute; reflexivity)
              ltac:(right; right; left; reflexivity))
    as (raw & acc & T & _ & _ & Htoken & _ & _ & _ & _ & _ & _ & _ & Hprice).
  split; [reflexivity|]. rewrite Hprice.
  destruct T; [discriminate Htoken|reflexivity].
Defined.

(** X8. No account of a partition is lost: every fetched account whose
    output mint is the mint of a tracked token has a published BUY position
    of that token, every fetched account whose input mint is that mint a
    published SELL position of it; an account that swaps one tracked token
    for the other has both. *)
Theorem partition_accounts_are_published w snap w' tr raw acc T :
  JupiterDCAAPI.getDCAAccounts w = (Ok snap, w', tr) ->
  fetchedAccounts w = Some raw ->
  In acc raw ->
  (isBuyOf T acc = true ->
   In (publishedPosition T BUY (quotedPrice w T) acc) (Snapshot.positions snap))
  /\ (isSellOf T acc = true ->
      In (publishedPosition T SELL (quotedPrice w T) acc) (Snapshot.positions snap)).
Proof.
  intros H Hraw Hacc.
  apply getDCAAccounts_Ok in H as (raw0 & _ & Hraw0 & _ & _ & _ & ->).
  rewrite Hraw in Hraw0. injection Hraw0 as <-.
  rewrite snapshot_positions.
  split; intros Hq.
  - assert (Hin : In acc (buysOf T raw))
      by (apply filter_In; split; [exact Hacc|exact Hq]).
    destruct T; rewrite !in_app_iff.
    + left. apply in_map. exact Hin.
    + right. right. left. apply in_map. exact Hin.
  - assert (Hin : In acc (sellsOf T raw))
      by (apply filter_In; split; [exact Hacc|exact Hq]).
    destruct T; rewrite !in_app_iff.
    + right. left. apply in_map. exact Hin.
    + right. right. right. apply in_map. exact Hin.
Qed.

Lemma partition_accounts_are_published_witness :
  let w := steadyWorld [buyLogos; logosToChaos]
             (PriceBody (NumberField 3%float)) (PriceBody (NumberField 2%float)) in
  exists snap,
    publishedBy w = Some snap
    /\ In (publishedPosition Chaos BUY 2%float logosToChaos) (Snapshot.positions snap)
    /\ In (publishedPosition Logos SELL 3%float logosToChaos) (Snapshot.positions snap).
Proof.
  cbv zeta. eexists. split; [vm_compute; reflexivity|].
  split.
  - exact (proj1 (partition_accounts_are_published
                    (steadyWorld [buyLogos; logosToChaos]
                       (PriceBody (NumberField 3%float))
                       (PriceBody (NumberField 2%float)))
                    _ _ _ [buyLogos; logosToChaos] logosToChaos Chaos
                    ltac:(vm_compute; reflexivity) eq_refl
                    ltac:(right; left; reflexivity)) eq_refl).
  - exact (proj2 (partition_accounts_are_published
                    (steadyWorld [buyLogos; logosToChaos]
                       (PriceBody (NumberField 3%float))
                       (PriceBody (NumberField 2%float)))
                    _ _ _ [buyLogos; logosToChaos] logosToChaos Logos
                    ltac:(vm_compute; reflexivity) eq_refl
                    ltac:(right; left; reflexivity)) eq_refl).
Defined.

(** ** Accounts of other tokens only *)

Lemma countIf_zero {A} (p : A -> bool) l :
  countIf p l = O -> forall a, In a l -> p a = false.
Proof.
  induction l as [|x l IH]; cbn [countIf In]; [contradiction|].
  destruct (p x) eqn:Hx; [discriminate|].
  intros H a [<-|Ha]; [exact Hx|exact (IH H a Ha)].
Qed.

Lemma filter_none {A} (q : A -> bool) l :
  (forall a, In a l -> q a = false) -> filter q l = [].
Proof.
  induction l as [|x l IH]; intros H; cbn [filter]; [reflexivity|].
  rewrite (H x (or_introl eq_refl)). apply IH. intros a Ha.
  apply H. right. exact Ha.
Qed.

Lemma unmatched_partitions raw :
  countIf matchesTracked raw = O ->
  JupiterDCAAPI.categorize raw
  = {| LOGOS := {| buys := []; sells := [] |};
       CHAOS := {| buys := []; sells := [] |} |}.
Proof.
  intros H. pose proof (countIf_zero _ _ H) as Hnone.
  unfold JupiterDCAAPI.categorize.
  rewrite !filter_none; [reflexivity|..]; intros acc Hin;
    specialize (Hnone acc Hin); unfold matchesTracked in Hnone;
    repeat (apply orb_false_elim in Hnone as [Hnone ?]); assumption.
Qed.

(** X9. When the fetch delivers accounts of which none matches a tracked
    mint, the cycle does not fail: it publishes no position and, for both
    tokens, a summary of zero orders and zero volumes, whatever the prices and
    the amounts of those accounts are. *)
Theorem no_tracked_account w raw :
  dcaReady w = true ->
  fetchedAccounts w = Some raw ->
  countIf matchesTracked raw = O ->
  exists snap,
    publishedBy w = Some snap
    /\ Snapshot.positions snap = []
    /\ Snapshot.summary snap = [ ("LOGOS", emptySummary); ("CHAOS", emptySummary) ].
Proof.
  intros Hready Hraw Hnone. unfold publishedBy, fetchedAccounts in *.
  rewrite getDCAAccounts_eq, Hready. cbn [negb].
  destruct (JupiterDCAAPI.withRetry JupiterDCAAPI.fetchAllAccounts
              JupiterDCAAPI.defaultMaxRetries w) as [[[raw0|e] w1] tr];
    [|discriminate Hraw].
  injection Hraw as ->. unfold snapshotFor.
  rewrite (unmatched_partitions raw Hnone). cbn [summarySafe convertAllSafe
    buys sells LOGOS CHAOS forallb andb].
  eexists. split; [reflexivity|]. split; reflexivity.
Qed.

Lemma no_tracked_account_witness :
  exists snap,
    publishedBy (steadyWorld [untracked; hugeAccount USDC_MINT USDC_MINT]
                   (PriceBody (NumberField 3%float)) (PriceBody NoField))
    = Some snap
    /\ Snapshot.positions snap = []
    /\ get "LOGOS" (Snapshot.summary snap) = Some emptySummary.
Proof.
  destruct (no_tracked_account
              (steadyWorld [untracked; hugeAccount USDC_MINT USDC_MINT]
                 (PriceBody (NumberField 3%float)) (PriceBody NoField))
              [untracked; hugeAccount USDC_MINT USDC_MINT]
              eq_refl eq_refl eq_refl) as (snap & Hrun & Hpos & Hsum).
  exists snap. split; [exact Hrun|]. split; [exact Hpos|].
  rewrite Hsum. reflexivity.
Defined.

(** ** What [fetchData] publishes *)

(** X10. When the cycle succeeds, [fetchData] resolves with the positions,
    summary and chart data of the snapshot in the state, [lastUpdate] at the
    clock, [loading] false and [error] null, whatever the state was before (an
    earlier error is cleared); it sets no timer, and the component shows the
    dashboard without the spinner. *)
Theorem successful_cycle_is_published st w snap w' tr :
  JupiterDCAAPI.getDCAAccounts w = (Ok snap, w', tr) ->
  exists st',
    DCADashboard.fetchData st w = (Ok st', w', tr)
    /\ DCADashboard.positions st' = Snapshot.positions snap
    /\ DCADashboard.summaryData st' = Snapshot.summary snap
    /\ DCADashboard.chartData st' = Snapshot.chartData snap
    /\ DCADashboard.lastUpdate st' = clock w'
    /\ DCADashboard.autoRefresh st' = DCADashboard.autoRefresh st
    /\ DCADashboard.error st' = None
    /\ DCADashboard.loading st' = false
    /\ countIf isFetchDataTimer tr = O
    /\ DCADashboardView.render st' = DCADashboardView.DashboardScreen false.
Proof.
  intros H. pose proof (getDCAAccounts_trace w) as Htrace.
  rewrite H in Htrace. destruct Htrace as [Htimer _].
  eexists. split.
  - unfold DCADashboard.fetchData, Async.tryCatch, Async.bind at 1.
    rewrite H. cbn. rewrite app_nil_r. reflexivity.
  - cbn. repeat split. exact Htimer.
Qed.

Lemma successful_cycle_is_published_witness :
  let failed :=
    {| DCADashboard.chartData := []; DCADashboard.summaryData := [];
       DCADashboard.positions := []; DCADashboard.loading := true;
       DCADashboard.error := Some "Failed to fetch data. Retrying...";
       DCADashboard.autoRefresh := true; DCADashboard.lastUpdate := 0 |} in
  let w := steadyWorld [buyLogos] (PriceBody (NumberField 3%float)) (PriceBody NoField) in
  exists st' w' tr,
    DCADashboard.fetchData failed w = (Ok st', w', tr)
    /\ DCADashboard.error st' = None
    /\ DCADashboard.loading st' = false
    /\ List.length (DCADashboard.positions st') = 1%nat.
Proof.
  cbv zeta.
  destruct (successful_cycle_is_published
              {| DCADashboard.chartData := []; DCADashboard.summaryData := [];
                 DCADashboard.positions := []; DCADashboard.loading := true;
                 DCADashboard.error := Some "Failed to fetch data. Retrying...";
                 DCADashboard.autoRefresh := true; DCADashboard.lastUpdate := 0 |}
              (steadyWorld [buyLogos] (PriceBody (NumberField 3%float))
                 (PriceBody NoField))
              _ _ _ ltac:(vm_compute; reflexivity))
    as (st' & Hrun & Hpos & _ & _ & _ & _ & Herr & Hload & _).
  exists st'. eexists. eexists. split; [exact Hrun|].
  split; [exact Herr|]. split; [exact Hload|]. rewrite Hpos. reflexivity.
Defined.

(** ** Failure, then recovery *)

Lemma fetchData_success st w snap w' tr :
  JupiterDCAAPI.getDCAAccounts w = (Ok snap, w', tr) ->
  DCADashboard.fetchData st w
  = (Ok (DCADashboard.setLoading false
           (DCADashboard.setLastUpdate (clock w')
              (DCADashboard.setChartData (Snapshot.chartData snap)
                 (DCADashboard.setSummaryData (Snapshot.summary snap)
                    (DCADashboard.setPositions (Snapshot.positions snap)
                       (DCADashboard.setError None
                          (DCADashboard.setLoading true st))))))),
     w', tr).
Proof.
  intros H. unfold DCADashboard.fetchData, Async.tryCatch, Async.bind at 1.
  rewrite H. cbn. rewrite app_nil_r. reflexivity.
Qed.






(** ** The chart *)

(** X12. After a successful cycle the chart of each tracked token has
    exactly one point, whatever points the state held before: its label is
    the time of the end of the cycle, the "Buy Volume" dataset holds the
    [buyVolume] of the summary and the "Sell Volume" dataset its [sellVolume]. *)
Theorem chart_after_success getHours getMinutes st w snap w' tr T :
  JupiterDCAAPI.getDCAAccounts w = (Ok snap, w', tr) ->
  exists st' s,
    DCADashboard.fetchData st w = (Ok st', w', tr)
    /\ get (symbol T) (DCADashboard.summaryData st') = Some s
    /\ DCADashboardView.labels
         (DCADashboardView.createChartData getHours getMinutes st' (symbol T))
       = [ DCADashboardView.pointLabel getHours getMinutes (clock w') ]
    /\ List.map (fun d => (DCADashboardView.label d, DCADashboardView.data d))
         (DCADashboardView.datasets
            (DCADashboardView.createChartData getHours getMinutes st' (symbol T)))
       = [ ("Buy Volume", [TokenSummary.buyVolume s]);
           ("Sell Volume", [TokenSummary.sellVolume s]) ].
Proof.
  intros H. pose proof (fetchData_success st w snap w' tr H) as Hrun.
  apply getDCAAccounts_Ok in H as (raw & _ & _ & _ & _ & _ & ->).
  eexists.
  exists (summaryFor (buysOf T raw) (sellsOf T raw)
            (match T with
             | Logos => quotedPrice w Logos
             | Chaos => quotedPrice w Chaos
             end)).
  split; [exact Hrun|]. destruct T; repeat split.
Qed.

Lemma chart_after_success_witness :
  let hours (t : Z) := Z.to_nat ((t / 3600000) mod 24) in
  let minutes (t : Z) := Z.to_nat ((t / 60000) mod 60) in
  let w := steadyWorld [buyLogos; sellLogos]
             (PriceBody (NumberField 3%float)) (PriceBody NoField) in
  exists st' w' tr,
    DCADashboard.fetchData (DCADashboard.initialState 0) w = (Ok st', w', tr)
    /\ DCADashboardView.labels
         (DCADashboardView.createChartData hours minutes st' "LOGOS")
       = [ "0:00" ]
    /\ List.map DCADashboardView.data
         (DCADashboardView.datasets
            (DCADashboardView.createChartData hours minutes st' "LOGOS"))
       = [ [1%float]; [2%float] ].
Proof.
  cbv zeta.
  destruct (chart_after_success
              (fun t => Z.to_nat ((t / 3600000) mod 24))
              (fun t => Z.to_nat ((t / 60000) mod 60))
              (DCADashboard.initialState 0)
              (steadyWorld [buyLogos; sellLogos]
                 (PriceBody (NumberField 3%float)) (PriceBody NoField))
              _ _ _ Logos ltac:(vm_compute; reflexivity))
    as (st' & s & Hrun & Hs & Hlabels & Hdata).
  exists st'. eexists. eexists. split; [exact Hrun|].
  split; [exact Hlabels|].
  unfold DCADashboard.fetchData in Hrun. vm_compute in Hrun.
  injection Hrun as <-. vm_compute. reflexivity.
Defined.


Lemma padded_minutes m :
  (m < 60)%nat ->
  exists a b,
    DCADashboardView.padStart 2 "0"%char (DCADashboardView.toString m)
    = String a (String b EmptyString).
Proof.
  intros Hm.
  do 60 (destruct m as [|m]; [eexists; eexists; reflexivity|]).
  lia.
Qed.

(** X14. The label of a chart point is the hour, a colon and the minutes in
    two characters: minutes below 10 get a leading 0. *)
Theorem point_label_minutes getHours getMinutes timestamp :
  (getMinutes timestamp < 60)%nat ->
  exists a b,
    DCADashboardView.pointLabel getHours getMinutes timestamp
    = String.append (DCADashboardView.toString (getHours timestamp))
        (String ":"%char (String a (String b EmptyString)))
    /\ ((getMinutes timestamp < 10)%nat -> a = "0"%char).
Proof.
  intros Hm. unfold DCADashboardView.pointLabel.
  remember (getMinutes timestamp) as m eqn:Em. clear Em.
  do 10 (destruct m as [|m];
         [eexists; eexists; split; [reflexivity|intros _; reflexivity]|]).
  destruct (padded_minutes (10 + m) Hm) as (a & b & Hpad).
  exists a, b. split; [|intros Hlt; lia].
  cbn [Nat.add] in Hpad. rewrite Hpad. reflexivity.
Qed.

Lemma point_label_minutes_witness :
  let hours (t : Z) := Z.to_nat ((t / 3600000) mod 24) in
  let minutes (t : Z) := Z.to_nat ((t / 60000) mod 60) in
  let t := 13 * 3600000 + 5 * 60000 in
  exists a b,
    DCADashboardView.pointLabel hours minutes t
    = String.append (DCADashboardView.toString (hours t))
        (String ":"%char (String a (String b EmptyString)))
    /\ ((minutes t < 10)%nat -> a = "0"%char).
Proof.
  cbv zeta.
  exact (point_label_minutes
           (fun t => Z.to_nat ((t / 3600000) mod 24))
           (fun t => Z.to_nat ((t / 60000) mod 60))
           (13 * 3600000 + 5 * 60000) ltac:(vm_compute; lia)).
Defined.

(** At 13:05 the label reads "13:05". *)
Example point_label_13_05 :
  DCADashboardView.pointLabel
    (fun t => Z.to_nat ((t / 3600000) mod 24))
    (fun t => Z.to_nat ((t / 60000) mod 60))
    (13 * 3600000 + 5 * 60000)
  = "13:05".
Proof. vm_compute. reflexivity. Qed.

(** ** The two sections of the dashboard *)

Lemma filter_map_all {A B} (p : B -> bool) (f : A -> B) l :
  (forall a, p (f a) = true) -> filter p (List.map f l) = List.map f l.
Proof.
  intros H. induction l as [|a l IH]; cbn [List.map filter]; [reflexivity|].
  rewrite H, IH. reflexivity.
Qed.

Lemma filter_map_nothing {A B} (p : B -> bool) (f : A -> B) l :
  (forall a, p (f a) = false) -> filter p (List.map f l) = [].
Proof.
  intros H. induction l as [|a l IH]; cbn [List.map filter]; [reflexivity|].
  rewrite H, IH. reflexivity.
Qed.

(** X15. After a successful cycle the LOGOS section followed by the CHAOS
    section shows the published positions, each once and in their order; a
    section for any other symbol would be empty. *)
Theorem sections_show_every_position st w snap w' tr :
  JupiterDCAAPI.getDCAAccounts w = (Ok snap, w', tr) ->
  exists st',
    DCADashboard.fetchData st w = (Ok st', w', tr)
    /\ DCADashboardView.sectionPositions "LOGOS" st'
       ++ DCADashboardView.sectionPositions "CHAOS" st'
       = Snapshot.positions snap
    /\ (forall token, token <> "LOGOS" -> token <> "CHAOS" ->
          DCADashboardView.sectionPositions token st' = []).
Proof.
  intros H. pose proof (fetchData_success st w snap w' tr H) as Hrun.
  apply getDCAAccounts_Ok in H as (raw & _ & _ & _ & _ & _ & ->).
  eexists. split; [exact Hrun|].
  unfold DCADashboardView.sectionPositions.
  cbn [DCADashboard.setLoading DCADashboard.setLastUpdate DCADashboard.setChartData
       DCADashboard.setSummaryData DCADashboard.setPositions DCADashboard.positions].
  rewrite snapshot_positions, !filter_app. split.
  - rewrite !(filter_map_all _ (publishedPosition Logos _ _)) by reflexivity.
    rewrite !(filter_map_nothing _ (publishedPosition Chaos _ _)) by reflexivity.
    rewrite !(filter_map_nothing _ (publishedPosition Logos _ _)) by reflexivity.
    rewrite !(filter_map_all _ (publishedPosition Chaos _ _)) by reflexivity.
    rewrite !app_nil_r, <- !app_assoc. reflexivity.
  - intros token HL HC.
    assert (Hno : forall T dir p acc,
              String.eqb (Position.token (publishedPosition T dir p acc)) token = false).
    { intros T dir p acc. apply String.eqb_neq. destruct T; cbn; congruence. }
    rewrite !filter_app.
    rewrite !(filter_map_nothing _ (publishedPosition Logos _ _))
      by (intros acc; apply Hno).
    rewrite !(filter_map_nothing _ (publishedPosition Chaos _ _))
      by (intros acc; apply Hno).
    reflexivity.
Qed.

Lemma sections_show_every_position_witness :
  let w := steadyWorld [sellChaos; buyLogos; logosToChaos]
             (PriceBody (NumberField 3%float)) (PriceBody (NumberField 2%float)) in
  exists st' w' tr,
    DCADashboard.fetchData (DCADashboard.initialState 0) w = (Ok st', w', tr)
    /\ List.map Position.id (DCADashboardView.sectionPositions "LOGOS" st')
       = [ "buy-logos"; "logos-to-chaos" ]
    /\ List.map Position.id (DCADashboardView.sectionPositions "CHAOS" st')
       = [ "logos-to-chaos"; "sell-chaos" ].
Proof.
  cbv zeta.
  destruct (sections_show_every_position (DCADashboard.initialState 0)
              (steadyWorld [sellChaos; buyLogos; logosToChaos]
                 (PriceBody (NumberField 3%float)) (PriceBody (NumberField 2%float)))
              _ _ _ ltac:(vm_compute; reflexivity)) as (st' & Hrun & _ & _).
  exists st'. eexists. eexists. split; [exact Hrun|].
  unfold DCADashboard.fetchData in Hrun. vm_compute in Hrun.
  injection Hrun as <-. split; vm_compute; reflexivity.
Defined.

(** ** [initDCA] *)




(** ** The price request *)

(** X17. [getCurrentPrice] never rejects and changes nothing: it answers
    with the mint it was asked for; the price is 0 when the request fails or
    carries no price; a numeric price is passed on unless it is 0, -0 or NaN,
    which give 0, so that the price of a numeric answer is never NaN. *)
Theorem getCurrentPrice_never_rejects m w :
  exists q,
    JupiterDCAAPI.getCurrentPrice m w = (Ok q, w, [])
    /\ mint q = m
    /\ (noPrice (priceFeed w m) = true -> price q = 0%float)
    /\ (forall x, priceFeed w m = PriceBody (NumberField x) ->
          price q = (if truthy x then x else 0%float)
          /\ PrimFloat.is_nan (price q) = false).
Proof.
  eexists. split; [apply getCurrentPrice_eq|]. cbn [mint price].
  split; [reflexivity|]. split.
  - destruct (priceFeed w m) as [e|[|x|text v]]; intros H;
      try reflexivity; discriminate H.
  - intros x ->. cbn [JupiterDCAAPI.priceOrZero]. split; [reflexivity|].
    unfold truthy. destruct (PrimFloat.is_zero x); [reflexivity|].
    destruct (PrimFloat.is_nan x) eqn:Hnan; [reflexivity|exact Hnan].
Qed.

(** ** The price block of a card *)

(** The product of any number and 0 is a zero or NaN: it is falsy. *)
Lemma times_zero_falsy x : truthy (x * 0)%float = false.
Proof.
  unfold truthy, PrimFloat.is_zero, PrimFloat.is_nan.
  rewrite !FloatAxioms.eqb_spec, FloatAxioms.mul_spec.
  change (Prim2SF PrimFloat.zero) with (S754_zero false).
  change (Prim2SF 0) with (S754_zero false).
  destruct (Prim2SF x) as [s|s| |s m e]; try reflexivity; destruct s; reflexivity.
Qed.

(** X18. The line "Est. Output" is never shown for a published position:
    when the price block of the card is shown, its last child is nothing for
    a BUY position and, for a SELL position, the bare number that
    [estimatedOutput] is (the per-cycle amount times 0, which is falsy). *)
Theorem estimated_output_never_shown w snap w' tr p block :
  JupiterDCAAPI.getDCAAccounts w = (Ok snap, w', tr) ->
  In p (Snapshot.positions snap) ->
  DCADashboardView.priceDetails p = DCADashboardView.Element block ->
  DCADashboardView.estimatedLine block
  = match Position.type p with
    | SELL => DCADashboardView.BareNumber (Position.amountPerCycle p * 0)%float
    | BUY => DCADashboardView.Nothing
    end.
Proof.
  intros H Hp Hblock.
  pose proof (published_estimatedOutput w snap w' tr p H Hp) as Hest.
  unfold DCADashboardView.priceDetails, DCADashboardView.guarded at 1 in Hblock.
  destruct (truthy (Position.targetPrice p)); [|discriminate Hblock].
  injection Hblock as <-. cbn [DCADashboardView.estimatedLine].
  rewrite Hest. destruct (Position.type p); [reflexivity|].
  unfold DCADashboardView.guarded. rewrite times_zero_falsy. reflexivity.
Qed.

Lemma estimated_output_never_shown_witness :
  let w := steadyWorld [sellLogosWithTarget]
             (PriceBody (NumberField 3%float)) (PriceBody NoField) in
  exists snap p block,
    publishedBy w = Some snap
    /\ nth_error (Snapshot.positions snap) 0 = Some p
    /\ DCADashboardView.priceDetails p = DCADashboardView.Element block
    /\ DCADashboardView.value (DCADashboardView.targetLine block) = 1.5%float
    /\ DCADashboardView.estimatedLine block = DCADashboardView.BareNumber 0%float.
Proof.
  cbv zeta. eexists. eexists. eexists.
  split; [vm_compute; reflexivity|].
  split; [vm_compute; reflexivity|].
  split; [vm_compute; reflexivity|].
  split; [reflexivity|].
  exact (estimated_output_never_shown
           (steadyWorld [sellLogosWithTarget]
              (PriceBody (NumberField 3%float)) (PriceBody NoField))
           _ _ _ _ _ ltac:(vm_compute; reflexivity)
           ltac:(left; reflexivity) ltac:(vm_compute; reflexivity)).
Defined.

(** X19. The card of a published position whose account has no minimum
    output amount shows no price block: [targetPrice] is 0, and in place of
    the block the card holds that bare 0. *)
Theorem no_target_price_shows_zero w snap w' tr p :
  JupiterDCAAPI.getDCAAccounts w = (Ok snap, w', tr) ->
  In p (Snapshot.positions snap) ->
  exists raw acc,
    fetchedAccounts w = Some raw /\ In acc raw
    /\ Position.id p = publicKey acc
    /\ (minOutAmount (account acc) = None ->
        Position.targetPrice p = 0%float
        /\ DCADashboardView.priceDetails p = DCADashboardView.BareNumber 0%float).
Proof.
  intros H Hp. apply getDCAAccounts_Ok in H as (raw & _ & Hraw & _ & _ & _ & ->).
  apply snapshot_position in Hp as (acc & T & dir & Hacc & _ & ->).
  exists raw, acc. split; [exact Hraw|]. split; [exact Hacc|].
  split; [reflexivity|]. intros Hnone.
  unfold DCADashboardView.priceDetails.
  cbn [Position.withCurrentPrice Position.targetPrice positionFor].
  rewrite Hnone. split; reflexivity.
Qed.

Lemma no_target_price_shows_zero_witness :
  let w := steadyWorld [buyLogos]
             (PriceBody (NumberField 3%float)) (PriceBody NoField) in
  exists snap p,
    publishedBy w = Some snap
    /\ nth_error (Snapshot.positions snap) 0 = Some p
    /\ DCADashboardView.priceDetails p = DCADashboardView.BareNumber 0%float.
Proof.
  cbv zeta. eexists. eexists.
  split; [vm_compute; reflexivity|].
  split; [vm_compute; reflexivity|].
  destruct (no_target_price_shows_zero
              (steadyWorld [buyLogos]
                 (PriceBody (NumberField 3%float)) (PriceBody NoField))
              _ _ _ _ ltac:(vm_compute; reflexivity) ltac:(left; reflexivity))
    as (raw & acc & Hraw & Hacc & _ & Hzero).
  vm_compute in Hraw. injection Hraw as <-.
  destruct Hacc as [<-|[]]. exact (proj2 (Hzero eq_refl)).
Defined.

(** ** [convertDCAAccount] on its own *)

